(** * circuitpython_wifimanager: a shallow embedding of [WiFiManager]

    The manager of [circuitpython_wifimanager/__init__.py] is embedded as
    state-passing functions over a record that carries the attributes of
    the Python object.  The collaborators the class talks to (the radio,
    the HTTP session, the socket pool, the NTP socket, [time.localtime])
    are not part of the repository; their answers are gathered in an
    environment record [Env], and every call made to them is logged in a
    trace of events, so that statements about "which calls were made, in
    which order" are statements about that trace. *)

From Stdlib Require Import ZArith Lia List String.
From Stdlib.Strings Require Import Byte.
From stdpp Require Import base option list strings gmap.
Import ListNotations.

Local Open Scope Z_scope.

#[local] Set Warnings "-register-all".

(** ** Python values and exceptions *)

(** The values that can sit in the secrets dict, or be returned by a
    collaborator.  [VFunc r] is a callable that returns [r] when called
    without arguments. *)
Inductive value : Type :=
| VNone
| VBool (b : bool)
| VInt (z : Z)
| VStr (s : string)
| VTuple (items : list value)
| VList (items : list value)
| VFunc (returns : value).

(** [bool(v)] *)
Definition truthy (v : value) : bool :=
  match v with
  | VNone => false
  | VBool b => b
  | VInt z => negb (z =? 0)
  | VStr s => negb (String.eqb s "")
  | VTuple l | VList l => match l with [] => false | _ :: _ => true end
  | VFunc _ => true
  end.

(** [isinstance(v, (tuple, list))] *)
Definition is_seq (v : value) : bool :=
  match v with
  | VTuple _ | VList _ => true
  | _ => false
  end.

(** The items of a tuple or list. *)
Definition seq_items (v : value) : list value :=
  match v with
  | VTuple l | VList l => l
  | _ => []
  end.

(** The exception classes that occur in the module or can come out of its
    collaborators. *)
Inductive exn_class : Type :=
| KeyError | IndexError | ValueError | RuntimeError | NotImplementedError
| TypeError | AssertionError | AttributeError | OSError | TimeoutError
| ConnectionError | StructError | OverflowError.

#[global] Instance exn_class_eq_dec : EqDecision exn_class.
Proof. solve_decision. Defined.

Record exn : Type := Exn { exn_cls : exn_class; exn_msg : string }.

(** [issubclass c d] for the classes above: [NotImplementedError] derives
    from [RuntimeError]; [TimeoutError] and [ConnectionError] derive from
    [OSError]. *)
Definition issubclass (c d : exn_class) : bool :=
  bool_decide (c = d) ||
  match c, d with
  | NotImplementedError, RuntimeError => true
  | TimeoutError, OSError => true
  | ConnectionError, OSError => true
  | _, _ => false
  end.

(** The filter of [except (ValueError, RuntimeError)] in [connect_normal]. *)
Definition recoverable (e : exn) : bool :=
  issubclass (exn_cls e) ValueError || issubclass (exn_cls e) RuntimeError.

Definition result (A : Type) : Type := (exn + A)%type.

(** Calling a value: [v()]. *)
Definition pycall (v : value) : result value :=
  match v with
  | VFunc r => inr r
  | _ => inl (Exn TypeError "object is not callable")
  end.

(** ** Collaborators *)

(** [wifi.Radio]: the association record, and what the module reads from it. *)
Record APInfo : Type := { ap_ssid : string; rssi : Z }.

Record Radio : Type := mkRadio {
  ap_info : option APInfo;
  connect_calls : nat;               (* how many times [connect] was called *)
  ipv4_address : string;             (* [str(radio.ipv4_address)] *)
  mac_address : list Z;
  scan_results : list (string * Z)   (* what a scan reports: ssid, rssi *)
}.

(** What one call of [radio.connect] does: it raises or not, and leaves the
    radio with some association record or none. *)
Record ConnectOutcome : Type := { raised : option exn; info_after : option APInfo }.

(** The status pixel: a device with a [color] attribute, or one with a
    [fill] method; [shown] is the value last written. *)
Inductive pixel_value : Type :=
| PInt (n : Z)
| PRGB (r g b : Z).

Record StatusPixel : Type := { has_color : bool; shown : option pixel_value }.

Inductive SocketPool : Type := SocketPool_of_radio.
Inductive Session : Type := Session_of_pool.

Inductive verb : Type := GET | POST | PUT | PATCH | DELETE.

Record Response : Type := { status_code : Z; text : string }.

(** [time.struct_time] *)
Record struct_time : Type := {
  tm_year : Z; tm_mon : Z; tm_mday : Z; tm_hour : Z; tm_min : Z; tm_sec : Z;
  tm_wday : Z; tm_yday : Z; tm_isdst : Z
}.

(** The answers of the collaborators. *)
Record Env : Type := {
  (* [radio.connect(ssid, password)], at the n-th call *)
  radio_connect : nat -> value -> value -> ConnectOutcome;
  (* [session.get/post/...(url, **kw)] *)
  session_request : verb -> string -> list (string * value) -> result Response;
  (* [pool.getaddrinfo(host, port)[0][4][0]] *)
  pool_getaddrinfo : string -> Z -> result string;
  (* [ipaddress.ip_address(s)] *)
  ip_address_of : string -> result value;
  (* [radio.ping(ip, timeout=...)] *)
  radio_ping : value -> value -> result value;
  (* [pool.close()] *)
  pool_close : result value;
  (* [client.sendto(msg, (host, port))] *)
  socket_sendto : list byte -> string -> Z -> result unit;
  (* [client.recvfrom_into(buffer)]: the bytes received, or the error of the
     socket when nothing arrives within its timeout *)
  socket_recvfrom_into : result (list byte);
  (* [time.localtime(secs)] *)
  time_localtime : Z -> result struct_time
}.

(** ** Events and the manager's state

    One event per call made to a collaborator.  For [print] the event keeps
    the label of the line (and the exception, when one is printed), not the
    formatted text. *)

Inductive event : Type :=
| EvPrint (line : string)
| EvPrintExn (line : string) (e : exn)
| EvStartScan
| EvStopScan
| EvPixelColor (v : pixel_value)      (* [statuspix.color = v] *)
| EvPixelFill (v : pixel_value)       (* [statuspix.fill(v)] *)
| EvRadioConnect (ssid password : value)
| EvNewPool
| EvNewSession
| EvRequest (v : verb) (url : string) (kw : list (string * value))
| EvGetAddrInfo (host : string) (port : Z)
| EvPing (ip timeout : value)
| EvPoolClose
| EvSocket
| EvSetTimeout (seconds : Z)
| EvSendTo (msg : list byte) (host : string) (port : Z)
| EvRecvFromInto (bufsize : nat)
| EvSocketClose
| EvSetRTC (now : struct_time).

(** What lies outside the object: the real-time clock and the log of the
    calls made so far (oldest first). *)
Record World : Type := { rtc_datetime : option struct_time; trace : list event }.

(** The attributes of a [WiFiManager] object.  [_ap_index] is a natural
    number: it is set to 0 by the constructor and afterwards only
    incremented or reset to 0.  [ent_user] and [ent_password] are absent
    unless the secrets give them. *)
Record WiFiManager : Type := mkWiFiManager {
  radio : Radio;
  debug : bool;
  ssid : value;
  password : value;
  _connection_type : Z;
  statuspix : option StatusPixel;
  _ap_index : nat;
  _pool : option SocketPool;
  _requests : option Session;
  ent_ssid : value;
  ent_ident : value;
  ent_user : option value;
  ent_password : option value;
  world : World
}.

Definition NORMAL : Z := 1.
Definition ENTERPRISE : Z := 2.

(** reference time for NTP (in seconds since 1900-01-01 00:00:00) *)
Definition TIME1970 : Z := 2208988800.

(** Attribute updates. *)
Definition set_radio (r : Radio) (m : WiFiManager) : WiFiManager :=
  mkWiFiManager r (debug m) (ssid m) (password m) (_connection_type m)
    (statuspix m) (_ap_index m) (_pool m) (_requests m) (ent_ssid m)
    (ent_ident m) (ent_user m) (ent_password m) (world m).

Definition set_statuspix (p : option StatusPixel) (m : WiFiManager) : WiFiManager :=
  mkWiFiManager (radio m) (debug m) (ssid m) (password m) (_connection_type m)
    p (_ap_index m) (_pool m) (_requests m) (ent_ssid m)
    (ent_ident m) (ent_user m) (ent_password m) (world m).

Definition set_ap_index (i : nat) (m : WiFiManager) : WiFiManager :=
  mkWiFiManager (radio m) (debug m) (ssid m) (password m) (_connection_type m)
    (statuspix m) i (_pool m) (_requests m) (ent_ssid m)
    (ent_ident m) (ent_user m) (ent_password m) (world m).

Definition set_pool (p : option SocketPool) (m : WiFiManager) : WiFiManager :=
  mkWiFiManager (radio m) (debug m) (ssid m) (password m) (_connection_type m)
    (statuspix m) (_ap_index m) p (_requests m) (ent_ssid m)
    (ent_ident m) (ent_user m) (ent_password m) (world m).

Definition set_requests (s : option Session) (m : WiFiManager) : WiFiManager :=
  mkWiFiManager (radio m) (debug m) (ssid m) (password m) (_connection_type m)
    (statuspix m) (_ap_index m) (_pool m) s (ent_ssid m)
    (ent_ident m) (ent_user m) (ent_password m) (world m).

Definition set_world (w : World) (m : WiFiManager) : WiFiManager :=
  mkWiFiManager (radio m) (debug m) (ssid m) (password m) (_connection_type m)
    (statuspix m) (_ap_index m) (_pool m) (_requests m) (ent_ssid m)
    (ent_ident m) (ent_user m) (ent_password m) w.

(** Append one event to the log. *)
Definition emit (e : event) (m : WiFiManager) : WiFiManager :=
  set_world {| rtc_datetime := rtc_datetime (world m);
               trace := trace (world m) ++ [e] |} m.

(** [rtc.RTC().datetime = now] *)
Definition set_rtc (now : struct_time) (m : WiFiManager) : WiFiManager :=
  set_world {| rtc_datetime := Some now; trace := trace (world m) |} m.

(** ** The monad of methods

    A method is run on the object; it returns a value and the object
    after the call, or raises with the object as the exception left it.
    [OutOfFuel] is the answer of a run that was cut before the retry loop
    of [connect_normal] came to an end. *)
Inductive outcome (A : Type) : Type :=
| Ret (a : A) (m : WiFiManager)
| Raise (e : exn) (m : WiFiManager)
| OutOfFuel.
Arguments Ret {A} a m.
Arguments Raise {A} e m.
Arguments OutOfFuel {A}.

Definition M (A : Type) : Type := WiFiManager -> outcome A.

Definition ret {A} (a : A) : M A := fun m => Ret a m.
Definition raise {A} (e : exn) : M A := fun m => Raise e m.

Definition bind {A B} (c : M A) (k : A -> M B) : M B :=
  fun m =>
    match c m with
    | Ret a m' => k a m'
    | Raise e m' => Raise e m'
    | OutOfFuel => OutOfFuel
    end.

Declare Scope method_scope.
Delimit Scope method_scope with method.
Notation "x <- c ;; k" := (bind c (fun x => k))
  (at level 100, c at next level, right associativity) : method_scope.
Notation "c ;;; k" := (bind c (fun _ => k))
  (at level 100, right associativity) : method_scope.
Local Open Scope method_scope.

(** [try: body  except <filter> as error: handler error] *)
Definition try_except {A} (body : M A) (catches : exn -> bool) (handler : exn -> M A) : M A :=
  fun m =>
    match body m with
    | Raise e m' => if catches e then handler e m' else Raise e m'
    | o => o
    end.

(** [with resource: body], where [release] is the resource's [__exit__]. *)
Definition with_release {A} (body : M A) (release : M unit) : M A :=
  fun m =>
    match body m with
    | Ret a m' => (release ;;; ret a) m'
    | Raise e m' => (release ;;; raise e) m'
    | OutOfFuel => OutOfFuel
    end.

Definition do (f : WiFiManager -> WiFiManager) : M unit := fun m => Ret tt (f m).
Definition log (e : event) : M unit := do (emit e).
Definition lift {A} (r : result A) : M A :=
  fun m => match r with inl e => Raise e m | inr a => Ret a m end.
Definition when (b : bool) (c : M unit) : M unit := if b then c else ret tt.

(** The object after a run, when the run came to an end. *)
Definition final {A} (o : outcome A) : option WiFiManager :=
  match o with
  | Ret _ m | Raise _ m => Some m
  | OutOfFuel => None
  end.

(** ** Observations on the log *)

(** The (ssid, password) pairs handed to [radio.connect], oldest first. *)
Fixpoint attempts (t : list event) : list (value * value) :=
  match t with
  | [] => []
  | EvRadioConnect s p :: t' => (s, p) :: attempts t'
  | _ :: t' => attempts t'
  end.

(** The values written to the status pixel, oldest first. *)
Fixpoint pixel_writes (t : list event) : list pixel_value :=
  match t with
  | [] => []
  | EvPixelColor v :: t' => v :: pixel_writes t'
  | EvPixelFill v :: t' => v :: pixel_writes t'
  | _ :: t' => pixel_writes t'
  end.

(** How many socket pools were created. *)
Fixpoint pools_created (t : list event) : nat :=
  match t with
  | [] => O
  | EvNewPool :: t' => S (pools_created t')
  | _ :: t' => pools_created t'
  end.

(** ** The methods of [WiFiManager] *)

(** [pixel_status(value)]: Change Status Pixel if it was defined. *)
Definition write_pixel (v : pixel_value) (self : WiFiManager) : WiFiManager :=
  match statuspix self with
  | Some px =>
      let px' := {| has_color := has_color px; shown := Some v |} in
      if has_color px
      then emit (EvPixelColor v) (set_statuspix (Some px') self)
      else emit (EvPixelFill v) (set_statuspix (Some px') self)
  | None => self
  end.

Definition pixel_status (v : pixel_value) : M unit := do (write_pixel v).

(** [secrets.get(key)] followed by a truth test. *)
Definition get_truthy (secrets : gmap string value) (key : string) : option value :=
  match secrets !! key with
  | Some v => if truthy v then Some v else None
  | None => None
  end.

(** [WiFiManager(radio, secrets, status_pixel, connection_type, debug)],
    run in the world [w]. *)
Definition __init__ (radio0 : Radio) (secrets : gmap string value)
    (status_pixel : option StatusPixel) (connection_type : Z) (debug0 : bool)
    (w : World) : result WiFiManager :=
  match secrets !! "ssid"%string with
  | None => inl (Exn KeyError "ssid")
  | Some ssid0 =>
      let password0 := default VNone (secrets !! "password"%string) in
      let self :=
        {| radio := radio0; debug := debug0; ssid := ssid0; password := password0;
           _connection_type := connection_type; statuspix := status_pixel;
           _ap_index := O; _pool := None; _requests := None;
           ent_ssid := default ssid0 (get_truthy secrets "ent_ssid");
           ent_ident := default (VStr "") (get_truthy secrets "ent_ident");
           ent_user := get_truthy secrets "ent_user";
           ent_password := get_truthy secrets "ent_password";
           world := w |} in
      inr (write_pixel (PInt 0) self)
  end.

(** [_get_next_ap()] *)
Definition _get_next_ap : M (value * value) :=
  fun self =>
    if is_seq (ssid self) && is_seq (password self) then
      if negb (truthy (ssid self)) || negb (truthy (password self)) then
        Raise (Exn ValueError "SSID and Password should contain at least 1 value") self
      else if negb (length (seq_items (ssid self)) =? length (seq_items (password self)))%nat then
        Raise (Exn ValueError "The length of SSIDs and Passwords should match") self
      else
        match seq_items (ssid self) !! _ap_index self,
              seq_items (password self) !! _ap_index self with
        | Some s, Some p =>
            let self1 := set_ap_index (S (_ap_index self)) self in
            let self2 :=
              if (length (seq_items (ssid self1)) <=? _ap_index self1)%nat
              then set_ap_index O self1 else self1 in
            Ret (s, p) self2
        | _, _ => Raise (Exn IndexError "index out of range") self
        end
    else if is_seq (ssid self) || is_seq (password self) then
      Raise (Exn NotImplementedError
               "If using multiple passwords, both SSID and Password should be lists or tuples") self
    else Ret (ssid self, password self) self.

(** The object the method runs on. *)
Definition this : M WiFiManager := fun self => Ret self self.

(** [assert x is not None] *)
Definition assert_not_none {A} (x : option A) : M A :=
  match x with
  | Some a => ret a
  | None => raise (Exn AssertionError "")
  end.

(** [struct.unpack("!12I", b)]: twelve big-endian 32-bit unsigned words; the
    buffer must have exactly 48 bytes. *)
Definition byte_val (b : byte) : Z := Z.of_N (Byte.to_N b).

Definition be32 (b : list byte) : Z :=
  fold_left (fun acc x => acc * 256 + byte_val x) b 0.

Fixpoint words (n : nat) (b : list byte) : list Z :=
  match n with
  | O => []
  | S n' => be32 (firstn 4 b) :: words n' (skipn 4 b)
  end.

Definition struct_unpack_12I (b : list byte) : result (list Z) :=
  if (length b =? 48)%nat then inr (words 12 b)
  else inl (Exn StructError "buffer size must match format").

(** [l[i]] on a list of words. *)
Definition index {A} (l : list A) (i : nat) : result A :=
  match l !! i with
  | Some a => inr a
  | None => inl (Exn IndexError "index out of range")
  end.

(** The NTP request: [b'\x1b' + 47 * b'\0']. *)
Definition ntp_msg : list byte := x1b :: repeat x00 47.

(** Lines 468-471 of [get_ntp_time]: the argument handed to
    [time.localtime], computed from the bytes [buffer[:size]]. *)
Definition ntp_seconds (received : list byte) (tz_offset : Z) : result Z :=
  match struct_unpack_12I received with
  | inl e => inl e
  | inr ws =>
      match index ws 10 with
      | inl e => inl e
      | inr t => inr (t - TIME1970 + tz_offset)
      end
  end.

Section Methods.

Context (env : Env).

(** [self.radio.connect(ssid, password)]: [dial] is the object once the
    call was made, whether it raised or not. *)
Definition dial (ssid0 password0 : value) (self : WiFiManager) : WiFiManager :=
  let r := radio self in
  let o := radio_connect env (connect_calls r) ssid0 password0 in
  let r' := mkRadio (info_after o) (S (connect_calls r)) (ipv4_address r)
              (mac_address r) (scan_results r) in
  emit (EvRadioConnect ssid0 password0) (set_radio r' self).

Definition radio_connect_call (ssid0 password0 : value) : M unit :=
  fun self =>
    match raised (radio_connect env (connect_calls (radio self)) ssid0 password0) with
    | Some e => Raise e (dial ssid0 password0 self)
    | None => Ret tt (dial ssid0 password0 self)
    end.

(** The [while not self.radio.ap_info] loop of [connect_normal]; one unit of
    fuel is spent per iteration. *)
Fixpoint connect_loop (fuel : nat) (ssid0 password0 : value) (failure_count : nat) : M unit :=
  fun self =>
    match ap_info (radio self) with
    | Some _ => Ret tt self
    | None =>
        match fuel with
        | O => OutOfFuel
        | S fuel' =>
            (failure_count' <-
               try_except
                 (when (debug self) (log (EvPrint "Connecting to AP...")) ;;;
                  pixel_status (PRGB 100 0 0) ;;;
                  radio_connect_call ssid0 password0 ;;;
                  pixel_status (PRGB 0 100 0) ;;;
                  ret O)
                 recoverable
                 (fun error =>
                    log (EvPrintExn "Failed to connect, retrying" error) ;;;
                    ret (S failure_count)) ;;
             connect_loop fuel' ssid0 password0 failure_count') self
        end
    end.

(** [connect_normal()]: Attempt a regular style Wi-Fi connection. *)
Definition connect_normal (fuel : nat) : M unit :=
  ap <- _get_next_ap ;;
  connect_loop fuel (fst ap) (snd ap) O.

(** [connect_enterprise()] *)
Definition connect_enterprise : M unit := raise (Exn NotImplementedError "").

(** [create_ap()] *)
Definition create_ap : M unit := raise (Exn NotImplementedError "").

(** [reset()] *)
Definition reset : M unit := raise (Exn NotImplementedError "").

(** The diagnostics of [connect] under [debug]; the text that is printed is
    abridged to its label. *)
Definition print_networks : M unit :=
  self <- this ;;
  log (EvPrint "MAC addr:") ;;;
  log EvStartScan ;;;
  fold_right (fun ap k => log (EvPrint (fst ap)) ;;; k) (ret tt)
    (scan_results (radio self)) ;;;
  log EvStopScan.

(** [connect()]: Attempt to connect to WiFi using the current settings. *)
Definition connect (fuel : nat) : M unit :=
  self <- this ;;
  when (debug self) print_networks ;;;
  (if _connection_type self =? NORMAL then connect_normal fuel
   else if _connection_type self =? ENTERPRISE then connect_enterprise
   else raise (Exn TypeError "Invalid WiFi connection type specified")) ;;;
  log EvNewPool ;;;
  do (set_pool (Some SocketPool_of_radio)) ;;;
  log EvNewSession ;;;
  do (set_requests (Some Session_of_pool)).

(** The guard that opens every network operation:
    [if not self.radio.ap_info: self.connect()]. *)
Definition ensure_connected (fuel : nat) : M unit :=
  fun self =>
    match ap_info (radio self) with
    | Some _ => Ret tt self
    | None => connect fuel self
    end.

(** [self._requests.<verb>(url, **kw)] *)
Definition session_call (v : verb) (url : string) (kw : list (string * value)) : M Response :=
  log (EvRequest v url kw) ;;;
  lift (session_request env v url kw).

(** [get], [put], [patch] and [delete] share one body. *)
Definition request_and_reset (v : verb) (fuel : nat) (url : string)
    (kw : list (string * value)) : M Response :=
  ensure_connected fuel ;;;
  self <- this ;;
  assert_not_none (_requests self) ;;;
  pixel_status (PRGB 0 0 100) ;;;
  return_val <- session_call v url kw ;;
  pixel_status (PInt 0) ;;;
  ret return_val.

Definition get := request_and_reset GET.
Definition put := request_and_reset PUT.
Definition patch := request_and_reset PATCH.
Definition delete := request_and_reset DELETE.

(** [post(url, **kw)] *)
Definition post (fuel : nat) (url : string) (kw : list (string * value)) : M Response :=
  ensure_connected fuel ;;;
  self <- this ;;
  assert_not_none (_requests self) ;;;
  pixel_status (PRGB 0 0 100) ;;;
  return_val <- session_call POST url kw ;;
  ret return_val.

(** [ping(host, timeout=...)] *)
Definition ping (fuel : nat) (host : string) (timeout : value) : M value :=
  ensure_connected fuel ;;;
  self <- this ;;
  assert_not_none (_pool self) ;;;
  pixel_status (PRGB 0 0 100) ;;;
  log (EvGetAddrInfo host 80) ;;;
  addr <- lift (pool_getaddrinfo env host 80) ;;
  ip <- lift (ip_address_of env addr) ;;
  log (EvPing ip timeout) ;;;
  response_time <- lift (radio_ping env ip timeout) ;;
  pixel_status (PInt 0) ;;;
  ret response_time.

(** [ip_address()] *)
Definition ip_address (fuel : nat) : M string :=
  ensure_connected fuel ;;;
  pixel_status (PRGB 0 0 100) ;;;
  pixel_status (PInt 0) ;;;
  self <- this ;;
  ret (ipv4_address (radio self)).

(** [signal_strength()] *)
Definition signal_strength (fuel : nat) : M Z :=
  ensure_connected fuel ;;;
  self <- this ;;
  match ap_info (radio self) with
  | Some info => ret (rssi info)
  | None => raise (Exn AttributeError "'NoneType' object has no attribute 'rssi'")
  end.

(** [deinit()]: Blank out the NeoPixels and release the socket pool.
    The source reads [self._pool.close()()]: the value returned by
    [close()] is called in its turn. *)
Definition deinit : M unit :=
  pixel_status (PInt 0) ;;;
  self <- this ;;
  match _pool self with
  | Some _ =>
      log EvPoolClose ;;;
      closed <- lift (pool_close env) ;;
      lift (pycall closed) ;;;
      ret tt
  | None => ret tt
  end.

(** [__exit__(...)] *)
Definition __exit__ : M unit := deinit.

(** [get_ntp_time(tz_offset, debug=...)]: Obtain the current time over NTP
    and set the internal RTC. *)
Definition get_ntp_time (fuel : nat) (tz_offset : Z) (debug0 : bool) : M unit :=
  let msg := ntp_msg in
  ensure_connected fuel ;;;
  self <- this ;;
  assert_not_none (_pool self) ;;;
  log EvSocket ;;;
  log (EvSetTimeout 30) ;;;
  received <-
    with_release
      (log (EvSendTo msg "pool.ntp.org" 123) ;;;
       lift (socket_sendto env msg "pool.ntp.org" 123) ;;;
       log (EvRecvFromInto 1024) ;;;
       data <- lift (socket_recvfrom_into env) ;;
       let data := firstn 1024 data in
       let buffer := data ++ repeat x00 (1024 - length data) in
       let size := length data in
       ret (firstn size buffer))
      (log EvSocketClose) ;;
  secs <- lift (ntp_seconds received tz_offset) ;;
  now <- lift (time_localtime env secs) ;;
  log (EvSetRTC now) ;;;
  do (set_rtc now) ;;;
  when debug0 (log (EvPrint "Time set to")).

(** The nine public network operations, with their arguments. *)
Inductive operation : Type :=
| OpGet (url : string) (kw : list (string * value))
| OpPost (url : string) (kw : list (string * value))
| OpPut (url : string) (kw : list (string * value))
| OpPatch (url : string) (kw : list (string * value))
| OpDelete (url : string) (kw : list (string * value))
| OpPing (host : string) (timeout : value)
| OpIpAddress
| OpSignalStrength
| OpGetNtpTime (tz_offset : Z) (debug0 : bool).

(** Run an operation and forget what it returns. *)
Definition forget {A} (c : M A) : M unit := c ;;; ret tt.

Definition run (fuel : nat) (op : operation) : M unit :=
  match op with
  | OpGet url kw => forget (get fuel url kw)
  | OpPost url kw => forget (post fuel url kw)
  | OpPut url kw => forget (put fuel url kw)
  | OpPatch url kw => forget (patch fuel url kw)
  | OpDelete url kw => forget (delete fuel url kw)
  | OpPing host timeout => forget (ping fuel host timeout)
  | OpIpAddress => forget (ip_address fuel)
  | OpSignalStrength => forget (signal_strength fuel)
  | OpGetNtpTime tz d => forget (get_ntp_time fuel tz d)
  end.

End Methods.

(** * Definitions used by the statements *)

(** [n] consecutive calls of [_get_next_ap], with what they return. *)
Fixpoint fetches (n : nat) : M (list (value * value)) :=
  match n with
  | O => ret []
  | S n' =>
      ap <- _get_next_ap ;;
      rest <- fetches n' ;;
      ret (ap :: rest)
  end.

(** The credential shapes that the spec calls malformed: sequences of
    unequal length, an empty sequence, or one sequence and one scalar. *)
Definition malformed (self : WiFiManager) : Prop :=
  (is_seq (ssid self) = true /\ is_seq (password self) = true /\
   length (seq_items (ssid self)) <> length (seq_items (password self)))
  \/ (is_seq (ssid self) = true /\ seq_items (ssid self) = [])
  \/ (is_seq (password self) = true /\ seq_items (password self) = [])
  \/ is_seq (ssid self) <> is_seq (password self).

(** The radio, from its [n0]-th call of [connect] on, fails [k] times on
    [(s, p)] with an error that the loop catches, stays unassociated, and
    associates at the next call. *)
Definition fails_then_succeeds (env : Env) (n0 k : nat) (s p : value) (info : APInfo) : Prop :=
  (forall i, (i < k)%nat ->
     exists e, radio_connect env (n0 + i) s p = {| raised := Some e; info_after := None |}
               /\ recoverable e = true)
  /\ radio_connect env (n0 + k) s p = {| raised := None; info_after := Some info |}.

(** [m'] was reached from [m] by calls of [radio.connect] on [(s, p)] only,
    with the cursor left alone. *)
Definition redialled (s p : value) (m m' : WiFiManager) : Prop :=
  (exists n, attempts (trace (world m')) = attempts (trace (world m)) ++ repeat (s, p) n)
  /\ _ap_index m' = _ap_index m.

(** The object when [radio.connect] is about to be called in an iteration. *)
Definition before_attempt (self : WiFiManager) : WiFiManager :=
  write_pixel (PRGB 100 0 0)
    (if debug self then emit (EvPrint "Connecting to AP...") self else self).

(** Events other than a call of [radio.connect] or the creation of a pool. *)
Definition silent (e : event) : bool :=
  match e with
  | EvRadioConnect _ _ | EvNewPool | EvNewSession => false
  | _ => true
  end.

(** [m'] differs from [m] by nothing that [connect] touches: the radio, the
    calls of [radio.connect], the pools created, the cursor, the pool and
    the session are the same. *)
Definition quiet (m m' : WiFiManager) : Prop :=
  radio m' = radio m /\
  attempts (trace (world m')) = attempts (trace (world m)) /\
  pools_created (trace (world m')) = pools_created (trace (world m)) /\
  _ap_index m' = _ap_index m /\
  _pool m' = _pool m /\
  _requests m' = _requests m.

(** A method is calm when, run on an associated radio, it comes to an end
    and is quiet. *)
Definition calm {A} (c : M A) : Prop :=
  forall m, ap_info (radio m) <> None ->
    match c m with
    | Ret _ m' | Raise _ m' => quiet m m'
    | OutOfFuel => False
    end.

(** The method of [WiFiManager] for a verb. *)
Definition request (env : Env) (v : verb) :
    nat -> string -> list (string * value) -> M Response :=
  match v with
  | GET => get env
  | POST => post env
  | PUT => put env
  | PATCH => patch env
  | DELETE => delete env
  end.

(** The event of a write of [v] on the pixel [px]. *)
Definition pixel_event (px : StatusPixel) (v : pixel_value) : event :=
  if has_color px then EvPixelColor v else EvPixelFill v.

Definition busy : pixel_value := PRGB 0 0 100.
Definition off : pixel_value := PInt 0.

(** The socket part of [get_ntp_time]: what is logged up to the call of
    [sendto], and up to the call of [recvfrom_into]. *)
Definition ntp_sent (self : WiFiManager) : WiFiManager :=
  emit (EvSendTo ntp_msg "pool.ntp.org" 123)
    (emit (EvSetTimeout 30) (emit EvSocket self)).

Definition ntp_listening (self : WiFiManager) : WiFiManager :=
  emit (EvRecvFromInto 1024) (ntp_sent self).

(** ** Data of the examples *)

Definition home_ap : APInfo := {| ap_ssid := "A"; rssi := -40 |}.

Definition idle_radio : Radio := mkRadio None O "0.0.0.0" [] [].
Definition linked_radio : Radio := mkRadio (Some home_ap) 1 "192.168.1.7" [] [].

(** A pixel driven through [fill]. *)
Definition neopixel : StatusPixel := {| has_color := false; shown := None |}.

Definition blank_world : World := {| rtc_datetime := None; trace := [] |}.

(** 2023-11-14 22:13:20, a Tuesday: second 1700000000 of the Unix epoch. *)
Definition time_2023 : struct_time :=
  {| tm_year := 2023; tm_mon := 11; tm_mday := 14; tm_hour := 22; tm_min := 13;
     tm_sec := 20; tm_wday := 1; tm_yday := 318; tm_isdst := 0 |}.

(** A reply whose word 10 is 0xE8FE6F80 = 2208988800 + 1700000000. *)
Definition ntp_reply_head : list byte := x1c :: repeat x00 39.
Definition ntp_reply_tail : list byte := repeat x00 4.
Definition ntp_reply : list byte :=
  ntp_reply_head ++ [xe8; xfe; x6f; x80] ++ ntp_reply_tail.

Definition short_reply : list byte := [x1c; x00; x00; x00].

(** Collaborators for the examples: the radio fails its first call of
    [connect] with a [RuntimeError] and associates at every later call;
    [pool.close()] returns [None]; the NTP socket answers [recv]. *)
Definition example_env (recv : result (list byte)) : Env :=
  {| radio_connect := fun n _ _ =>
       if (n =? 0)%nat
       then {| raised := Some (Exn RuntimeError "No network with that ssid");
               info_after := None |}
       else {| raised := None; info_after := Some home_ap |};
     session_request := fun _ _ _ => inr {| status_code := 200; text := "ok" |};
     pool_getaddrinfo := fun _ _ => inr "93.184.216.34"%string;
     ip_address_of := fun s => inr (VStr s);
     radio_ping := fun _ _ => inr (VInt 0);
     pool_close := inr VNone;
     socket_sendto := fun _ _ _ => inr tt;
     socket_recvfrom_into := recv;
     time_localtime := fun secs =>
       if secs =? 1700000000 then inr time_2023
       else inl (Exn OverflowError "timestamp out of range") |}.

Definition flaky_env : Env := example_env (inr ntp_reply).
Definition short_env : Env := example_env (inr short_reply).
Definition timeout_env : Env := example_env (inl (Exn TimeoutError "timed out")).

(** A manager set up with the pairs ("A", "a") and ("B", "b"), not yet
    connected. *)
Definition two_aps : WiFiManager :=
  {| radio := idle_radio; debug := false;
     ssid := VList [VStr "A"; VStr "B"]; password := VList [VStr "a"; VStr "b"];
     _connection_type := NORMAL; statuspix := Some neopixel; _ap_index := O;
     _pool := None; _requests := None;
     ent_ssid := VList [VStr "A"; VStr "B"]; ent_ident := VStr "";
     ent_user := None; ent_password := None; world := blank_world |}.

(** Two SSIDs and one scalar password. *)
Definition mixed_aps : WiFiManager :=
  {| radio := idle_radio; debug := false;
     ssid := VList [VStr "A"; VStr "B"]; password := VStr "a";
     _connection_type := NORMAL; statuspix := Some neopixel; _ap_index := O;
     _pool := None; _requests := None;
     ent_ssid := VList [VStr "A"; VStr "B"]; ent_ident := VStr "";
     ent_user := None; ent_password := None; world := blank_world |}.

(** Two SSIDs and one password in a tuple. *)
Definition uneven_aps : WiFiManager :=
  {| radio := idle_radio; debug := false;
     ssid := VList [VStr "A"; VStr "B"]; password := VTuple [VStr "a"];
     _connection_type := NORMAL; statuspix := Some neopixel; _ap_index := O;
     _pool := None; _requests := None;
     ent_ssid := VList [VStr "A"; VStr "B"]; ent_ident := VStr "";
     ent_user := None; ent_password := None; world := blank_world |}.

(** A manager whose radio is associated and whose session exists. *)
Definition linked : WiFiManager :=
  {| radio := linked_radio; debug := false;
     ssid := VStr "A"; password := VStr "a";
     _connection_type := NORMAL; statuspix := Some neopixel; _ap_index := O;
     _pool := Some SocketPool_of_radio; _requests := Some Session_of_pool;
     ent_ssid := VStr "A"; ent_ident := VStr "";
     ent_user := None; ent_password := None; world := blank_world |}.

(** ** Further data of the examples *)

(** A manager with one scalar pair, not yet connected. *)
Definition one_ap : WiFiManager :=
  {| radio := idle_radio; debug := false;
     ssid := VStr "A"; password := VStr "a";
     _connection_type := NORMAL; statuspix := Some neopixel; _ap_index := O;
     _pool := None; _requests := None;
     ent_ssid := VStr "A"; ent_ident := VStr "";
     ent_user := None; ent_password := None; world := blank_world |}.

(** The collaborators of [flaky_env] with another radio. *)
Definition env_with_radio (f : nat -> value -> value -> ConnectOutcome) : Env :=
  {| radio_connect := f;
     session_request := session_request flaky_env;
     pool_getaddrinfo := pool_getaddrinfo flaky_env;
     ip_address_of := ip_address_of flaky_env;
     radio_ping := radio_ping flaky_env;
     pool_close := pool_close flaky_env;
     socket_sendto := socket_sendto flaky_env;
     socket_recvfrom_into := socket_recvfrom_into flaky_env;
     time_localtime := time_localtime flaky_env |}.

(** A radio that never finds the network: every call of [connect] raises a
    [RuntimeError]. *)
Definition dead_env : Env :=
  env_with_radio (fun _ _ _ =>
    {| raised := Some (Exn RuntimeError "No network with that ssid");
       info_after := None |}).

(** A radio whose [connect] raises [ConnectionError], which is an [OSError]. *)
Definition refused_env : Env :=
  env_with_radio (fun _ _ _ =>
    {| raised := Some (Exn ConnectionError "Authentication failure");
       info_after := None |}).

(** What [connect] logs under [debug] before it connects. *)
Definition scan_log (self : WiFiManager) : list event :=
  [EvPrint "MAC addr:"; EvStartScan] ++
  map (fun ap => EvPrint (fst ap)) (scan_results (radio self)) ++ [EvStopScan].

(** The object once the diagnostics of [connect] are printed. *)
Definition diagnosed (self : WiFiManager) : WiFiManager :=
  if debug self
  then set_world {| rtc_datetime := rtc_datetime (world self);
                    trace := trace (world self) ++ scan_log self |} self
  else self.

(** The object once [connect] has created the pool and the session. *)
Definition with_session (self : WiFiManager) : WiFiManager :=
  set_requests (Some Session_of_pool)
    (emit EvNewSession (set_pool (Some SocketPool_of_radio) (emit EvNewPool self))).

(** What the status pixel shows, if there is one. *)
Definition pixel_shown (self : WiFiManager) : option (option pixel_value) :=
  option_map shown (statuspix self).

(** A manager configured for WPA2 Enterprise. *)
Definition enterprise_mgr : WiFiManager :=
  {| radio := idle_radio; debug := true;
     ssid := VStr "A"; password := VStr "a";
     _connection_type := ENTERPRISE; statuspix := Some neopixel; _ap_index := O;
     _pool := None; _requests := None;
     ent_ssid := VStr "A"; ent_ident := VStr "";
     ent_user := None; ent_password := None; world := blank_world |}.

(** [m'] has the pool, the session and the kind of status pixel of [m], and
    no pool was created in between. *)
Definition kept (m m' : WiFiManager) : Prop :=
  _pool m' = _pool m /\
  _requests m' = _requests m /\
  pools_created (trace (world m')) = pools_created (trace (world m)) /\
  option_map has_color (statuspix m') = option_map has_color (statuspix m).

(** A session whose calls raise [OSError]. *)
Definition offline_env : Env :=
  {| radio_connect := radio_connect flaky_env;
     session_request := fun _ _ _ => inl (Exn OSError "Failed SSL handshake");
     pool_getaddrinfo := fun _ _ => inl (Exn OSError "Name or service not known");
     ip_address_of := ip_address_of flaky_env;
     radio_ping := radio_ping flaky_env;
     pool_close := pool_close flaky_env;
     socket_sendto := fun _ _ _ => inl (Exn OSError "Network unreachable");
     socket_recvfrom_into := socket_recvfrom_into flaky_env;
     time_localtime := time_localtime flaky_env |}.

(** A manager just constructed, on a radio that is already associated. *)
Definition fresh_on_linked : WiFiManager :=
  {| radio := linked_radio; debug := false;
     ssid := VStr "A"; password := VStr "a";
     _connection_type := NORMAL; statuspix := Some neopixel; _ap_index := O;
     _pool := None; _requests := None;
     ent_ssid := VStr "A"; ent_ident := VStr "";
     ent_user := None; ent_password := None; world := blank_world |}.

(** Whether, at the end of a log, the socket opened last is still open. *)
Definition socket_left_open (t : list event) : bool :=
  fold_left (fun is_open e =>
               match e with
               | EvSocket => true
               | EvSocketClose => false
               | _ => is_open
               end) t false.

(** A reply of 68 bytes: the 48 bytes of [ntp_reply] and an extension. *)
Definition long_reply : list byte := ntp_reply ++ repeat x00 20.
Definition long_env : Env := example_env (inr long_reply).

(** A radio that associates at every call of [connect]. *)
Definition open_env : Env :=
  env_with_radio (fun _ _ _ => {| raised := None; info_after := Some home_ap |}).

(** Secrets with two SSIDs and no password. *)
Definition list_ssid_secrets : gmap string value :=
  {[ "ssid"%string := VList [VStr "A"; VStr "B"] ]}.

(** How many HTTP sessions were created. *)
Fixpoint sessions_created (t : list event) : nat :=
  match t with
  | [] => O
  | EvNewSession :: t' => S (sessions_created t')
  | _ :: t' => sessions_created t'
  end.

(** Secrets with two access points. *)
Definition two_ap_secrets : gmap string value :=
  <[ "ssid"%string := VList [VStr "A"; VStr "B"] ]>
    {[ "password"%string := VList [VStr "a"; VStr "b"] ]}.

(** * Properties *)

(** ** The credential rotation of [_get_next_ap] *)

Lemma truthy_seq (v : value) :
  is_seq v = true -> truthy v = negb (length (seq_items v) =? 0)%nat.
Proof. destruct v as [| | | |l|l|]; try discriminate; intros _; destruct l; reflexivity. Qed.

Lemma set_ap_index_same (self : WiFiManager) :
  set_ap_index (_ap_index self) self = self.
Proof. destruct self; reflexivity. Qed.

(** One fetch on well-formed sequences: the pair under the cursor, and the
    cursor moved by one, back to 0 at the end. *)
Lemma get_next_ap_seq (self : WiFiManager) (s p : value) :
  is_seq (ssid self) = true ->
  is_seq (password self) = true ->
  length (seq_items (ssid self)) = length (seq_items (password self)) ->
  seq_items (ssid self) !! _ap_index self = Some s ->
  seq_items (password self) !! _ap_index self = Some p ->
  _get_next_ap self =
    Ret (s, p)
      (set_ap_index
         (if (length (seq_items (ssid self)) <=? S (_ap_index self))%nat
          then O else S (_ap_index self)) self).
Proof.
  intros Hs Hp Hlen Hsi Hpi. unfold _get_next_ap.
  rewrite Hs, Hp, (truthy_seq _ Hs), (truthy_seq _ Hp), <- Hlen. simpl.
  assert (Hlt : (_ap_index self < length (seq_items (ssid self)))%nat)
    by (eapply lookup_lt_Some; eassumption).
  destruct (Nat.eqb_spec (length (seq_items (ssid self))) 0) as [E|_]; [lia|].
  simpl. rewrite Nat.eqb_refl. simpl. rewrite Hsi, Hpi.
  destruct (length (seq_items (ssid self)) <=? S (_ap_index self))%nat; reflexivity.
Qed.

(** Starting with the cursor at [i], the next [k] fetches walk through the
    pairs [i], [i+1], ..., as long as they stay within the sequence. *)
Lemma fetches_walk (k : nat) :
  forall (self : WiFiManager) (i : nat),
    is_seq (ssid self) = true ->
    is_seq (password self) = true ->
    length (seq_items (ssid self)) = length (seq_items (password self)) ->
    _ap_index self = i ->
    (i + k <= length (seq_items (ssid self)))%nat ->
    fetches k self =
      Ret (firstn k (skipn i (zip (seq_items (ssid self)) (seq_items (password self)))))
        (set_ap_index
           (if (length (seq_items (ssid self)) <=? i + k)%nat
            then (if (k =? 0)%nat then i else O) else (i + k)%nat) self).
Proof.
  induction k as [|k IH]; intros self i Hs Hp Hlen Hi Hk.
  - simpl. unfold ret. rewrite Nat.add_0_r. subst i.
    destruct (_ <=? _)%nat; rewrite set_ap_index_same; reflexivity.
  - assert (Hlt : (i < length (seq_items (ssid self)))%nat) by lia.
    destruct (lookup_lt_is_Some_2 (seq_items (ssid self)) i Hlt) as [s Hsi].
    assert (Hlt' : (i < length (seq_items (password self)))%nat) by lia.
    destruct (lookup_lt_is_Some_2 (seq_items (password self)) i Hlt') as [p Hpi].
    cbn [fetches]. unfold bind at 1. subst i.
    rewrite (get_next_ap_seq self s p Hs Hp Hlen Hsi Hpi).
    set (self1 := set_ap_index _ self).
    assert (Hc : zip (seq_items (ssid self)) (seq_items (password self))
                   !! _ap_index self = Some (s, p)).
    { apply lookup_zip_with_Some. eauto. }
    rewrite (drop_S _ _ _ Hc). cbn [firstn].
    destruct (Nat.leb_spec (length (seq_items (ssid self))) (S (_ap_index self))) as [Hend|Hmore].
    + (* that was the last pair: k = 0 *)
      assert (k = O) by lia. subst k. simpl. unfold bind, ret. simpl.
      destruct (Nat.leb_spec (length (seq_items (ssid self))) (_ap_index self + 1)); [|lia].
      reflexivity.
    + unfold bind.
      rewrite (IH self1 (S (_ap_index self))); try (subst self1; simpl; auto; lia).
      unfold ret. subst self1. simpl.
      replace (_ap_index self + S k)%nat with (S (_ap_index self + k)) by lia.
      destruct (Nat.leb_spec (length (seq_items (ssid self))) (S (_ap_index self + k)));
        [destruct (Nat.eqb_spec k 0)|]; try reflexivity.
      subst k. lia.
Qed.

Lemma fetches_app (n k : nat) (self : WiFiManager) :
  fetches (n + k) self =
    (l1 <- fetches n ;; l2 <- fetches k ;; ret (l1 ++ l2)) self.
Proof.
  revert self. induction n as [|n IH]; intros self.
  - simpl. unfold bind, ret. simpl. destruct (fetches k self); reflexivity.
  - cbn [Nat.add fetches]. unfold bind, ret in *.
    destruct (_get_next_ap self) as [ap m| |]; try reflexivity.
    rewrite IH.
    destruct (fetches n m) as [l1 m1| |]; try reflexivity.
    destruct (fetches k m1) as [l2 m2| |]; reflexivity.
Qed.

(** C4 --- [_get_next_ap] on two sequences of the same length N >= 1, cursor
    at 0: the first N calls return the pairs (ssid[0], password[0]), ...,
    (ssid[N-1], password[N-1]) in this order, each once, and the call after
    them returns the first pair again. *)
Theorem get_next_ap_round_robin (self : WiFiManager) :
  is_seq (ssid self) = true ->
  is_seq (password self) = true ->
  length (seq_items (ssid self)) = length (seq_items (password self)) ->
  (1 <= length (seq_items (ssid self)))%nat ->
  _ap_index self = O ->
  let pairs := zip (seq_items (ssid self)) (seq_items (password self)) in
  let N := length (seq_items (ssid self)) in
  fetches N self = Ret pairs self /\
  exists self', fetches (N + 1) self = Ret (pairs ++ firstn 1 pairs) self'.
Proof.
  intros Hs Hp Hlen HN Hi pairs N.
  assert (HNfetch : fetches N self = Ret pairs self).
  { subst pairs N.
    rewrite (fetches_walk _ self O Hs Hp Hlen Hi) by lia.
    rewrite Nat.add_0_l, Nat.leb_refl.
    destruct (Nat.eqb_spec (length (seq_items (ssid self))) 0) as [E|_]; [lia|].
    assert (Hself : set_ap_index O self = self)
      by (rewrite <- Hi; apply set_ap_index_same).
    rewrite Hself. cbn [skipn].
    rewrite firstn_all2; [reflexivity|].
    rewrite drop_0, length_zip_with. lia. }
  split; [exact HNfetch|].
  rewrite fetches_app. unfold bind at 1. rewrite HNfetch.
  unfold bind at 1.
  rewrite (fetches_walk 1 self O Hs Hp Hlen Hi) by lia.
  unfold ret. eexists. reflexivity.
Qed.

(** On a malformed configuration [_get_next_ap] raises, with the object
    untouched: [ValueError] when both are sequences, [NotImplementedError]
    when only one is. *)
Lemma get_next_ap_malformed (self : WiFiManager) :
  malformed self ->
  exists e,
    _get_next_ap self = Raise e self /\
    exn_cls e = (if is_seq (ssid self) && is_seq (password self)
                 then ValueError else NotImplementedError).
Proof.
  intros Hbad. unfold _get_next_ap.
  destruct (is_seq (ssid self)) eqn:Hs, (is_seq (password self)) eqn:Hp; simpl.
  - (* two sequences: one is empty, or the lengths differ *)
    rewrite (truthy_seq _ Hs), (truthy_seq _ Hp).
    destruct (Nat.eqb_spec (length (seq_items (ssid self))) 0) as [Es|Es]; simpl;
      [eexists; split; reflexivity|].
    destruct (Nat.eqb_spec (length (seq_items (password self))) 0) as [Ep|Ep]; simpl;
      [eexists; split; reflexivity|].
    destruct (Nat.eqb_spec (length (seq_items (ssid self)))
                (length (seq_items (password self)))) as [El|El]; simpl;
      [|eexists; split; reflexivity].
    exfalso. destruct Hbad as [(_ & _ & H)|[(_ & H)|[(_ & H)|H]]].
    + congruence.
    + rewrite H in Es. simpl in Es. congruence.
    + rewrite H in Ep. simpl in Ep. congruence.
    + congruence.
  - eexists; split; reflexivity.
  - eexists; split; reflexivity.
  - exfalso. destruct Hbad as [(H & _)|[(H & _)|[(H & _)|H]]]; congruence.
Qed.

(** C5 --- On sequences of unequal length, on an empty sequence, and on one
    sequence with one scalar, [_get_next_ap] raises ([ValueError] in the
    first two cases when both are sequences, [NotImplementedError] when
    exactly one is a sequence) and returns no pair. *)
Theorem get_next_ap_rejects_malformed (self : WiFiManager) :
  malformed self ->
  (exists e m,
     _get_next_ap self = Raise e m /\
     (exn_cls e = ValueError \/ exn_cls e = NotImplementedError) /\
     (is_seq (ssid self) = is_seq (password self) -> exn_cls e = ValueError) /\
     (is_seq (ssid self) <> is_seq (password self) -> exn_cls e = NotImplementedError))
  /\ (forall ap m, _get_next_ap self <> Ret ap m).
Proof.
  intros Hbad. destruct (get_next_ap_malformed self Hbad) as (e & Hrun & Hcls).
  split.
  - exists e, self. split; [exact Hrun|].
    unfold malformed in Hbad.
    destruct (is_seq (ssid self)), (is_seq (password self)); simpl in Hcls;
      try (split; [auto|split; intros; congruence]).
    exfalso. destruct Hbad as [(H & _)|[(H & _)|[(H & _)|H]]]; congruence.
  - intros ap m. rewrite Hrun. discriminate.
Qed.

(** C9 --- When [_get_next_ap] raises on a malformed configuration, the
    object after the call is the object before it: [_ap_index] and every
    other attribute are unchanged, and nothing was logged. *)
Theorem get_next_ap_error_atomic (self : WiFiManager) :
  malformed self ->
  exists e,
    _get_next_ap self = Raise e self /\
    forall e' m, _get_next_ap self = Raise e' m ->
      m = self /\ _ap_index m = _ap_index self.
Proof.
  intros Hbad. destruct (get_next_ap_malformed self Hbad) as (e & Hrun & _).
  exists e. split; [exact Hrun|].
  intros e' m. rewrite Hrun. intros [= _ <-]. split; reflexivity.
Qed.

(** ** The retry loop of [connect_normal] *)

Lemma attempts_app (t t' : list event) :
  attempts (t ++ t') = attempts t ++ attempts t'.
Proof.
  induction t as [|e t IH]; [reflexivity|].
  destruct e; simpl; rewrite IH; reflexivity.
Qed.

Lemma radio_write_pixel v m : radio (write_pixel v m) = radio m.
Proof. unfold write_pixel. destruct (statuspix m) as [px|]; [destruct (has_color px)|]; reflexivity. Qed.

Lemma ap_index_write_pixel v m : _ap_index (write_pixel v m) = _ap_index m.
Proof. unfold write_pixel. destruct (statuspix m) as [px|]; [destruct (has_color px)|]; reflexivity. Qed.

Lemma attempts_write_pixel v m :
  attempts (trace (world (write_pixel v m))) = attempts (trace (world m)).
Proof.
  unfold write_pixel. destruct (statuspix m) as [px|]; [destruct (has_color px)|];
    simpl; rewrite ?attempts_app; simpl; rewrite ?app_nil_r; reflexivity.
Qed.

Lemma redialled_refl s p m : redialled s p m m.
Proof. split; [exists O; simpl; rewrite app_nil_r; reflexivity|reflexivity]. Qed.

Lemma redialled_trans s p m1 m2 m3 :
  redialled s p m1 m2 -> redialled s p m2 m3 -> redialled s p m1 m3.
Proof.
  intros [[n1 H1] I1] [[n2 H2] I2]. split; [|congruence].
  exists (n1 + n2)%nat. rewrite H2, H1, <- app_assoc, repeat_app. reflexivity.
Qed.

Section Loop.

Context (env : Env).

Lemma radio_before_attempt self : radio (before_attempt self) = radio self.
Proof. unfold before_attempt. rewrite radio_write_pixel. destruct (debug self); reflexivity. Qed.

Lemma redialled_attempt s p self :
  redialled s p self (dial env s p (before_attempt self)).
Proof.
  split.
  - exists 1%nat. unfold dial, before_attempt. simpl. rewrite attempts_app, attempts_write_pixel.
    destruct (debug self); simpl; rewrite ?attempts_app; simpl; rewrite ?app_nil_r; reflexivity.
  - unfold dial, before_attempt. simpl. rewrite ap_index_write_pixel.
    destruct (debug self); reflexivity.
Qed.

(** One iteration of the loop, entered without an association. *)
Lemma connect_loop_step fuel s p fc self :
  ap_info (radio self) = None ->
  connect_loop env (S fuel) s p fc self =
    let m1 := before_attempt self in
    let m2 := dial env s p m1 in
    match raised (radio_connect env (connect_calls (radio m1)) s p) with
    | None => connect_loop env fuel s p O (write_pixel (PRGB 0 100 0) m2)
    | Some e =>
        if recoverable e
        then connect_loop env fuel s p (S fc)
               (emit (EvPrintExn "Failed to connect, retrying" e) m2)
        else Raise e m2
    end.
Proof.
  intros H. cbn [connect_loop]. rewrite H.
  unfold bind, try_except, when, log, do, pixel_status, ret, radio_connect_call,
    before_attempt.
  destruct (debug self); simpl;
    (destruct (raised _) as [e|]; [destruct (recoverable e)|]; reflexivity).
Qed.

(** With an association the loop is not entered, whatever the fuel. *)
Lemma connect_loop_associated fuel s p fc self info :
  ap_info (radio self) = Some info ->
  connect_loop env fuel s p fc self = Ret tt self.
Proof. intros H. destruct fuel; simpl; rewrite H; reflexivity. Qed.

Lemma connect_loop_retries s p info (k : nat) :
  forall fuel fc self,
    ap_info (radio self) = None ->
    fails_then_succeeds env (connect_calls (radio self)) k s p info ->
    (k < fuel)%nat ->
    exists self',
      connect_loop env fuel s p fc self = Ret tt self' /\
      attempts (trace (world self')) =
        attempts (trace (world self)) ++ repeat (s, p) (S k) /\
      _ap_index self' = _ap_index self /\
      ap_info (radio self') = Some info.
Proof.
  induction k as [|k IH]; intros fuel fc self Hnone [Hfail Hok] Hfuel;
    (destruct fuel as [|fuel]; [lia|]);
    rewrite (connect_loop_step _ _ _ _ _ Hnone); cbv zeta;
    rewrite radio_before_attempt.
  - rewrite Nat.add_0_r in Hok. rewrite Hok. simpl raised. cbv beta iota.
    set (m3 := write_pixel _ _).
    assert (Hinfo : ap_info (radio m3) = Some info).
    { subst m3. rewrite radio_write_pixel. unfold dial. simpl.
      rewrite radio_before_attempt, Hok. reflexivity. }
    exists m3. rewrite (connect_loop_associated _ _ _ _ _ _ Hinfo).
    destruct (redialled_attempt s p self) as [_ Hidx].
    repeat split; auto.
    + subst m3. rewrite attempts_write_pixel. unfold dial, before_attempt. simpl.
      rewrite attempts_app, attempts_write_pixel.
      destruct (debug self); simpl; rewrite ?attempts_app; simpl; rewrite ?app_nil_r; reflexivity.
    + subst m3. rewrite ap_index_write_pixel. exact Hidx.
  - destruct (Hfail O ltac:(lia)) as (e & He & Hrec).
    rewrite Nat.add_0_r in He. rewrite He. simpl raised. cbv beta iota. rewrite Hrec.
    set (m3 := emit _ _).
    assert (Hcalls : connect_calls (radio m3) = S (connect_calls (radio self))).
    { subst m3. unfold dial. simpl. rewrite radio_before_attempt. reflexivity. }
    assert (Hnone3 : ap_info (radio m3) = None).
    { subst m3. unfold dial. simpl. rewrite radio_before_attempt, He. reflexivity. }
    destruct (IH fuel (S fc) m3 Hnone3) as (self' & Hrun & Hatt & Hidx & Hinfo).
    { rewrite Hcalls. split.
      - intros i Hi. destruct (Hfail (S i) ltac:(lia)) as (e' & He' & Hrec').
        exists e'. rewrite <- He'. split; [f_equal; lia|exact Hrec'].
      - rewrite <- Hok. f_equal. lia. }
    { lia. }
    exists self'. rewrite Hrun. repeat split; auto.
    + rewrite Hatt. subst m3. unfold dial, before_attempt. simpl.
      rewrite !attempts_app, attempts_write_pixel. simpl.
      destruct (debug self); simpl; rewrite ?attempts_app; simpl;
        rewrite ?app_nil_r, <- ?app_assoc; reflexivity.
    + rewrite Hidx. subst m3. unfold dial, before_attempt. simpl.
      rewrite ap_index_write_pixel. destruct (debug self); reflexivity.
Qed.

Lemma redialled_write_pixel s p v m m' :
  redialled s p m m' -> redialled s p m (write_pixel v m').
Proof.
  intros [[n H] I]. split.
  - exists n. rewrite attempts_write_pixel. exact H.
  - rewrite ap_index_write_pixel. exact I.
Qed.

Lemma redialled_print s p line e m m' :
  redialled s p m m' -> redialled s p m (emit (EvPrintExn line e) m').
Proof.
  intros [[n H] I]. split; [|exact I].
  exists n. simpl. rewrite attempts_app. simpl. rewrite app_nil_r. exact H.
Qed.

(** However the loop ends, it ends associated, or on an error of
    [radio.connect] that the [except] clause does not catch; and every call
    of [radio.connect] it made was on [(s, p)]. *)
Lemma connect_loop_exit s p (fuel : nat) :
  forall fc self,
    match connect_loop env fuel s p fc self with
    | Ret _ self' => ap_info (radio self') <> None /\ redialled s p self self'
    | Raise e self' =>
        recoverable e = false /\
        (exists n, raised (radio_connect env n s p) = Some e) /\
        redialled s p self self'
    | OutOfFuel => True
    end.
Proof.
  induction fuel as [|fuel IH]; intros fc self.
  - simpl. destruct (ap_info (radio self)) eqn:H; [|exact I].
    split; [congruence|apply redialled_refl].
  - destruct (ap_info (radio self)) as [info|] eqn:H.
    + rewrite (connect_loop_associated _ _ _ _ _ _ H).
      split; [congruence|apply redialled_refl].
    + rewrite (connect_loop_step _ _ _ _ _ H). cbv zeta.
      pose proof (redialled_attempt s p self) as Hstep.
      destruct (raised _) as [e|] eqn:He; [destruct (recoverable e) eqn:Hrec|].
      * match goal with |- context [connect_loop env fuel s p ?c ?m] =>
          specialize (IH c m); destruct (connect_loop env fuel s p c m) end;
          intuition eauto using redialled_trans, redialled_print.
      * split; [exact Hrec|]. split; [eauto|exact Hstep].
      * match goal with |- context [connect_loop env fuel s p ?c ?m] =>
          specialize (IH c m); destruct (connect_loop env fuel s p c m) end;
          intuition eauto using redialled_trans, redialled_write_pixel.
Qed.

End Loop.

Lemma get_next_ap_frame (self self1 : WiFiManager) (ap : value * value) :
  _get_next_ap self = Ret ap self1 -> exists i, self1 = set_ap_index i self.
Proof.
  unfold _get_next_ap.
  destruct (is_seq (ssid self) && is_seq (password self)).
  - destruct (negb (truthy (ssid self)) || negb (truthy (password self))); [discriminate|].
    destruct (negb _); [discriminate|].
    destruct (seq_items (ssid self) !! _ap_index self); [|discriminate].
    destruct (seq_items (password self) !! _ap_index self); [|discriminate].
    intros [= _ <-]. destruct (_ <=? _)%nat; eexists; reflexivity.
  - destruct (is_seq (ssid self) || is_seq (password self)); [discriminate|].
    intros [= _ <-]. exists (_ap_index self). symmetry. apply set_ap_index_same.
Qed.

(** C1 --- [connect_normal] fetches one pair [(s, p)] before its loop. When
    the radio fails k times with a [ValueError] or [RuntimeError] and then
    associates, the call returns after k+1 calls of [radio.connect], all on
    [(s, p)], and leaves the cursor where the single fetch put it.  Whatever
    the radio does, a call that returns leaves the radio associated, a call
    that raises out of the loop raises an error of [radio.connect] that is
    neither a [ValueError] nor a [RuntimeError], and in both cases every
    call of [radio.connect] was on [(s, p)] and the cursor is where the
    single fetch put it. *)
Theorem connect_normal_retries_same_pair (env : Env) (self self1 : WiFiManager)
    (s p : value) :
  _get_next_ap self = Ret (s, p) self1 ->
  (forall k info fuel,
     ap_info (radio self) = None ->
     fails_then_succeeds env (connect_calls (radio self)) k s p info ->
     (k < fuel)%nat ->
     exists self',
       connect_normal env fuel self = Ret tt self' /\
       attempts (trace (world self')) =
         attempts (trace (world self)) ++ repeat (s, p) (S k) /\
       _ap_index self' = _ap_index self1 /\
       ap_info (radio self') = Some info)
  /\
  (forall fuel,
     match connect_normal env fuel self with
     | Ret _ self' =>
         ap_info (radio self') <> None /\
         (exists n, attempts (trace (world self')) =
                      attempts (trace (world self)) ++ repeat (s, p) n) /\
         _ap_index self' = _ap_index self1
     | Raise e self' =>
         recoverable e = false /\
         (exists n, raised (radio_connect env n s p) = Some e) /\
         (exists n, attempts (trace (world self')) =
                      attempts (trace (world self)) ++ repeat (s, p) n) /\
         _ap_index self' = _ap_index self1
     | OutOfFuel => True
     end).
Proof.
  intros Hfetch. destruct (get_next_ap_frame _ _ _ Hfetch) as [i Hself1].
  assert (Hradio : radio self1 = radio self) by (subst self1; reflexivity).
  assert (Hworld : world self1 = world self) by (subst self1; reflexivity).
  split.
  - intros k info fuel Hnone Hscript Hfuel.
    unfold connect_normal, bind. rewrite Hfetch. cbn [fst snd].
    rewrite <- Hradio in Hnone, Hscript.
    destruct (connect_loop_retries env s p info k fuel O self1 Hnone Hscript Hfuel)
      as (self' & Hrun & Hatt & Hidx & Hinfo).
    exists self'. rewrite <- Hworld. auto.
  - intros fuel. unfold connect_normal, bind. rewrite Hfetch. cbn [fst snd].
    pose proof (connect_loop_exit env s p fuel O self1) as Hexit.
    rewrite <- Hworld.
    destruct (connect_loop env fuel s p O self1) as [[] self'|e self'|];
      [destruct Hexit as (Ha & Hn & Hi)|destruct Hexit as (Hr & Hn' & Hn & Hi)|exact I];
      auto.
Qed.

(** ** The guard of the network operations *)

Lemma quiet_refl m : quiet m m.
Proof. repeat split. Qed.

Lemma quiet_trans m1 m2 m3 : quiet m1 m2 -> quiet m2 m3 -> quiet m1 m3.
Proof. unfold quiet. intuition congruence. Qed.

Lemma pools_created_app (t t' : list event) :
  pools_created (t ++ t') = (pools_created t + pools_created t')%nat.
Proof.
  induction t as [|e t IH]; [reflexivity|].
  destruct e; simpl; rewrite IH; reflexivity.
Qed.

Lemma quiet_emit e m : silent e = true -> quiet m (emit e m).
Proof.
  intros He. repeat split; simpl.
  - rewrite attempts_app. destruct e; try discriminate; simpl; apply app_nil_r.
  - rewrite pools_created_app. destruct e; try discriminate; simpl; lia.
Qed.

Lemma quiet_write_pixel v m : quiet m (write_pixel v m).
Proof.
  unfold write_pixel. destruct (statuspix m) as [px|]; [|apply quiet_refl].
  destruct (has_color px);
    (eapply quiet_trans; [|apply quiet_emit; reflexivity]); repeat split.
Qed.

Lemma quiet_set_rtc now m : quiet m (set_rtc now m).
Proof. repeat split. Qed.

Create HintDb calm.

Lemma calm_ret {A} (a : A) : calm (ret a).
Proof. intros m _. apply quiet_refl. Qed.

Lemma calm_raise {A} (e : exn) : calm (@raise A e).
Proof. intros m _. apply quiet_refl. Qed.

Lemma calm_this : calm this.
Proof. intros m _. apply quiet_refl. Qed.

Lemma calm_lift {A} (r : result A) : calm (lift r).
Proof. intros m _. unfold lift. destruct r; apply quiet_refl. Qed.

Lemma calm_assert {A} (x : option A) : calm (assert_not_none x).
Proof. destruct x; [apply calm_ret|apply calm_raise]. Qed.

Lemma calm_log e : silent e = true -> calm (log e).
Proof. intros He m _. apply quiet_emit, He. Qed.

Lemma calm_pixel_status v : calm (pixel_status v).
Proof. intros m _. apply quiet_write_pixel. Qed.

Lemma calm_set_rtc now : calm (do (set_rtc now)).
Proof. intros m _. apply quiet_set_rtc. Qed.

Lemma quiet_associated m m' :
  quiet m m' -> ap_info (radio m) <> None -> ap_info (radio m') <> None.
Proof. intros (Hr & _). rewrite Hr. auto. Qed.

Lemma calm_bind {A B} (c : M A) (k : A -> M B) :
  calm c -> (forall a, calm (k a)) -> calm (bind c k).
Proof.
  intros Hc Hk m Hm. unfold bind. specialize (Hc m Hm).
  destruct (c m) as [a m'|e m'|]; auto.
  specialize (Hk a m' (quiet_associated _ _ Hc Hm)).
  destruct (k a m'); eauto using quiet_trans.
Qed.

Lemma calm_when (b : bool) (c : M unit) : calm c -> calm (when b c).
Proof. destruct b; [auto|intros _; apply calm_ret]. Qed.

Lemma calm_with_release {A} (body : M A) (release : M unit) :
  calm body -> calm release -> calm (with_release body release).
Proof.
  intros Hb Hr m Hm. unfold with_release. specialize (Hb m Hm).
  destruct (body m) as [a m'|e m'|]; auto.
  - pose proof (calm_bind release (fun _ => ret a) Hr (fun _ => calm_ret a) m'
                  (quiet_associated _ _ Hb Hm)) as H.
    destruct ((release ;;; ret a) m'); eauto using quiet_trans.
  - pose proof (calm_bind release (fun _ => @raise A e) Hr (fun _ => calm_raise e) m'
                  (quiet_associated _ _ Hb Hm)) as H.
    destruct ((release ;;; raise e) m'); eauto using quiet_trans.
Qed.

#[local] Hint Resolve calm_ret calm_raise calm_this calm_lift calm_assert
  calm_pixel_status calm_set_rtc calm_when : calm.
#[local] Hint Extern 1 (calm (log _)) => (apply calm_log; reflexivity) : calm.
#[local] Hint Extern 2 (calm (bind _ _)) => (apply calm_bind; [|intros ?]) : calm.
#[local] Hint Extern 2 (calm (with_release _ _)) => (apply calm_with_release) : calm.

Section Guard.

Context (env : Env).

(** On an associated radio the guard returns at once, with the object as
    it was. *)
Lemma ensure_connected_associated fuel self :
  ap_info (radio self) <> None -> ensure_connected env fuel self = Ret tt self.
Proof.
  intros H. unfold ensure_connected. destruct (ap_info (radio self)); congruence.
Qed.

Lemma calm_ensure_connected fuel : calm (ensure_connected env fuel).
Proof.
  intros m Hm. rewrite (ensure_connected_associated _ _ Hm). apply quiet_refl.
Qed.

#[local] Hint Resolve calm_ensure_connected : calm.

Lemma calm_run fuel op : calm (run env fuel op).
Proof.
  destruct op; unfold run, forget, get, put, patch, delete, request_and_reset,
    post, ping, ip_address, signal_strength, get_ntp_time, session_call; cbv zeta;
    auto 20 with calm.
  apply calm_bind; [|intros ?; auto with calm].
  apply calm_bind; [auto with calm|intros _].
  apply calm_bind; [auto with calm|intros self].
  destruct (ap_info (radio self)); auto with calm.
Qed.

(** C2 --- On a radio that reports an association, the guard
    [if not self.radio.ap_info: self.connect()] returns with the object
    unchanged, so that running it twice is running it once; and each of
    [get], [post], [put], [patch], [delete], [ping], [ip_address],
    [signal_strength] and [get_ntp_time] comes to an end without a call of
    [radio.connect] and without what [connect] does: no pool or session is
    created, the cursor, the pool and the session attributes are kept. *)
Theorem ensure_connected_idempotent (fuel : nat) (self : WiFiManager) (op : operation) :
  ap_info (radio self) <> None ->
  ensure_connected env fuel self = Ret tt self /\
  (ensure_connected env fuel ;;; ensure_connected env fuel) self =
    ensure_connected env fuel self /\
  exists self',
    final (run env fuel op self) = Some self' /\
    attempts (trace (world self')) = attempts (trace (world self)) /\
    connect_calls (radio self') = connect_calls (radio self) /\
    pools_created (trace (world self')) = pools_created (trace (world self)) /\
    _ap_index self' = _ap_index self /\
    _pool self' = _pool self /\
    _requests self' = _requests self.
Proof.
  intros H. pose proof (ensure_connected_associated fuel self H) as Hg.
  split; [exact Hg|]. split.
  - unfold bind. rewrite Hg. exact Hg.
  - pose proof (calm_run fuel op self H) as Hq.
    destruct (run env fuel op self) as [a m'|e m'|]; [| |contradiction];
      exists m'; destruct Hq as (Hr & Ha & Hp & Hi & Hpool & Hreq);
      rewrite Hr; auto 10.
Qed.

End Guard.

(** ** The status signals of the HTTP verbs *)

Lemma write_pixel_present v px m :
  statuspix m = Some px ->
  trace (world (write_pixel v m)) = trace (world m) ++ [pixel_event px v] /\
  statuspix (write_pixel v m) = Some {| has_color := has_color px; shown := Some v |}.
Proof.
  intros H. unfold write_pixel, pixel_event. rewrite H.
  destruct (has_color px); split; reflexivity.
Qed.

(** C8 --- A request made while associated, whose HTTP call returns: the
    pixel is set to (0, 0, 100), then the session is called, then [get],
    [put], [patch] and [delete] set the pixel to 0, while [post] returns
    with the pixel still on (0, 0, 100). *)
Theorem request_status_signals (env : Env) (v : verb) (fuel : nat) (url : string)
    (kw : list (string * value)) (self : WiFiManager) (sess : Session)
    (px : StatusPixel) (resp : Response) :
  ap_info (radio self) <> None ->
  _requests self = Some sess ->
  statuspix self = Some px ->
  session_request env v url kw = inr resp ->
  exists self',
    request env v fuel url kw self = Ret resp self' /\
    self' = (let called := emit (EvRequest v url kw) (write_pixel busy self) in
             match v with POST => called | _ => write_pixel off called end) /\
    trace (world self') =
      trace (world self) ++ [pixel_event px busy; EvRequest v url kw] ++
      match v with POST => [] | _ => [pixel_event px off] end /\
    option_map shown (statuspix self') =
      Some (Some match v with POST => busy | _ => off end).
Proof.
  intros Hassoc Hsess Hpx Hresp.
  destruct (write_pixel_present busy px self Hpx) as [Ht1 Hp1].
  set (called := emit (EvRequest v url kw) (write_pixel busy self)).
  assert (Hpx2 : statuspix called = Some {| has_color := has_color px; shown := Some busy |})
    by exact Hp1.
  destruct (write_pixel_present off _ called Hpx2) as [Ht2 Hp2].
  assert (Hrun : forall w, w <> POST ->
            request_and_reset env w fuel url kw self =
              match session_request env w url kw with
              | inr r => Ret r (write_pixel off (emit (EvRequest w url kw) (write_pixel busy self)))
              | inl e => Raise e (emit (EvRequest w url kw) (write_pixel busy self))
              end).
  { intros w _. unfold request_and_reset, bind.
    rewrite (ensure_connected_associated env fuel self Hassoc).
    unfold this. rewrite Hsess. simpl.
    unfold session_call, bind, log, do, lift. simpl.
    destruct (session_request env w url kw); reflexivity. }
  assert (Hpost : post env fuel url kw self =
            match session_request env POST url kw with
            | inr r => Ret r (emit (EvRequest POST url kw) (write_pixel busy self))
            | inl e => Raise e (emit (EvRequest POST url kw) (write_pixel busy self))
            end).
  { unfold post, bind.
    rewrite (ensure_connected_associated env fuel self Hassoc).
    unfold this. rewrite Hsess. simpl.
    unfold session_call, bind, log, do, lift. simpl.
    destruct (session_request env POST url kw); reflexivity. }
  destruct v; simpl request; unfold get, put, patch, delete;
    rewrite ?Hpost, ?Hrun by discriminate; rewrite Hresp;
    eexists; (split; [reflexivity|]); (split; [reflexivity|]); cbv zeta;
    fold called; rewrite ?Ht2, ?Hp2; subst called; simpl; rewrite ?Ht1, ?Hp1;
    rewrite <- ?app_assoc; split; reflexivity.
Qed.

(** ** [deinit] *)

(** Without a pool [deinit] blanks the pixel and returns. *)
Lemma deinit_without_pool (env : Env) (self : WiFiManager) :
  _pool self = None -> deinit env self = Ret tt (write_pixel off self).
Proof.
  intros H. unfold deinit, bind, pixel_status, do, this.
  assert (Hp : _pool (write_pixel (PInt 0) self) = None).
  { unfold write_pixel. destruct (statuspix self) as [px|]; [destruct (has_color px)|];
      simpl; exact H. }
  rewrite Hp. reflexivity.
Qed.

(** With a pool, [deinit] calls what [close()] returned; it returns only if
    that is a callable. *)
Lemma deinit_with_pool (env : Env) (self : WiFiManager) (pool : SocketPool) :
  _pool self = Some pool ->
  deinit env self =
    let m := emit EvPoolClose (write_pixel off self) in
    match pool_close env with
    | inl e => Raise e m
    | inr (VFunc _) => Ret tt m
    | inr _ => Raise (Exn TypeError "object is not callable") m
    end.
Proof.
  intros H. unfold deinit, bind, pixel_status, do, this.
  assert (Hp : _pool (write_pixel (PInt 0) self) = Some pool).
  { unfold write_pixel. destruct (statuspix self) as [px|]; [destruct (has_color px)|];
      simpl; exact H. }
  rewrite Hp. unfold log, do, lift, ret. cbv zeta.
  destruct (pool_close env) as [e|[]]; reflexivity.
Qed.

(** ** [get_ntp_time] *)

Lemma words_lookup (n : nat) :
  forall (b : list byte) (i : nat),
    (i < n)%nat -> words n b !! i = Some (be32 (firstn 4 (skipn (4 * i) b))).
Proof.
  induction n as [|n IH]; intros b i Hi; [lia|].
  destruct i as [|i]; [reflexivity|].
  cbn [words]. rewrite lookup_cons, IH by lia.
  rewrite drop_drop. replace (4 * S i)%nat with (4 + 4 * i)%nat by lia. reflexivity.
Qed.

(** Word 10 of a reply is made of its bytes 40 to 43, most significant
    first. *)
Lemma word_10 (pre post : list byte) (b0 b1 b2 b3 : byte) :
  length pre = 40%nat ->
  words 12 (pre ++ [b0; b1; b2; b3] ++ post) !! 10%nat =
    Some (byte_val b0 * 2 ^ 24 + byte_val b1 * 2 ^ 16 + byte_val b2 * 2 ^ 8 + byte_val b3).
Proof.
  intros Hpre. rewrite words_lookup by lia.
  change (4 * 10)%nat with 40%nat. rewrite <- Hpre, drop_app_length.
  simpl. rewrite take_0. unfold be32. simpl. f_equal. ring.
Qed.

Lemma ntp_seconds_reply (pre post : list byte) (b0 b1 b2 b3 : byte) (tz : Z) :
  length pre = 40%nat -> length post = 4%nat ->
  ntp_seconds (pre ++ [b0; b1; b2; b3] ++ post) tz =
    inr (byte_val b0 * 2 ^ 24 + byte_val b1 * 2 ^ 16 + byte_val b2 * 2 ^ 8 + byte_val b3
         - 2208988800 + tz).
Proof.
  intros Hpre Hpost. unfold ntp_seconds, struct_unpack_12I, index.
  rewrite !length_app, Hpre, Hpost. cbn [length Nat.add Nat.eqb].
  rewrite (word_10 pre post b0 b1 b2 b3 Hpre). reflexivity.
Qed.

Lemma ntp_seconds_short (received : list byte) (tz : Z) :
  length received <> 48%nat ->
  ntp_seconds received tz = inl (Exn StructError "buffer size must match format").
Proof.
  intros H. unfold ntp_seconds, struct_unpack_12I.
  destruct (Nat.eqb_spec (length received) 48); [contradiction|reflexivity].
Qed.

Section TimeSync.

Context (env : Env).

(** [get_ntp_time] on an associated radio with a pool, step by step. *)
Lemma get_ntp_time_run fuel tz dbg self pool :
  ap_info (radio self) <> None ->
  _pool self = Some pool ->
  get_ntp_time env fuel tz dbg self =
    match socket_sendto env ntp_msg "pool.ntp.org" 123 with
    | inl e => Raise e (emit EvSocketClose (ntp_sent self))
    | inr _ =>
        match socket_recvfrom_into env with
        | inl e => Raise e (emit EvSocketClose (ntp_listening self))
        | inr data =>
            let closed := emit EvSocketClose (ntp_listening self) in
            match ntp_seconds (firstn 1024 data) tz with
            | inl e => Raise e closed
            | inr secs =>
                match time_localtime env secs with
                | inl e => Raise e closed
                | inr now =>
                    let m := set_rtc now (emit (EvSetRTC now) closed) in
                    Ret tt (if dbg then emit (EvPrint "Time set to") m else m)
                end
            end
        end
    end.
Proof.
  intros Hassoc Hpool. unfold get_ntp_time, bind at 1. cbv zeta.
  rewrite (ensure_connected_associated env fuel self Hassoc).
  unfold bind at 1, this. unfold bind at 1. rewrite Hpool. simpl assert_not_none.
  unfold ret at 1. unfold with_release. unfold bind, log, do, lift, ret, raise, when,
    ntp_listening, ntp_sent.
  destruct (socket_sendto env ntp_msg "pool.ntp.org" 123) as [e|[]]; [reflexivity|].
  destruct (socket_recvfrom_into env) as [e|data]; [reflexivity|].
  rewrite take_app_length.
  destruct (ntp_seconds (take 1024 data) tz) as [e|secs]; [reflexivity|].
  destruct (time_localtime env secs) as [e|now]; [reflexivity|].
  destruct dbg; reflexivity.
Qed.

End TimeSync.

(** C6 --- A reply of 48 bytes whose bytes 40 to 43 are the big-endian
    digits of T makes [get_ntp_time(tz_offset)] hand
    T - 2208988800 + tz_offset to [time.localtime] and store the calendar
    time it returns in the RTC; for T = 2208988800 + 1700000000 and
    tz_offset = 0 that number of seconds is 1700000000. *)
Theorem get_ntp_time_sets_clock (env : Env) (fuel : nat) (tz_offset : Z) (dbg : bool)
    (self : WiFiManager) (pool : SocketPool) (pre post : list byte)
    (b0 b1 b2 b3 : byte) (now : struct_time) :
  let T := byte_val b0 * 2 ^ 24 + byte_val b1 * 2 ^ 16 + byte_val b2 * 2 ^ 8 + byte_val b3 in
  let reply := pre ++ [b0; b1; b2; b3] ++ post in
  ap_info (radio self) <> None ->
  _pool self = Some pool ->
  socket_sendto env ntp_msg "pool.ntp.org" 123 = inr tt ->
  length pre = 40%nat ->
  length post = 4%nat ->
  socket_recvfrom_into env = inr reply ->
  time_localtime env (T - 2208988800 + tz_offset) = inr now ->
  (exists self',
     get_ntp_time env fuel tz_offset dbg self = Ret tt self' /\
     rtc_datetime (world self') = Some now) /\
  ntp_seconds reply tz_offset = inr (T - 2208988800 + tz_offset) /\
  (T = 2208988800 + 1700000000 -> tz_offset = 0 ->
   ntp_seconds reply tz_offset = inr 1700000000).
Proof.
  intros T reply Hassoc Hpool Hsend Hpre Hpost Hrecv Hlocal.
  assert (Hsecs : ntp_seconds reply tz_offset = inr (T - 2208988800 + tz_offset))
    by (apply ntp_seconds_reply; assumption).
  assert (Hlen : length reply = 48%nat).
  { subst reply. rewrite !length_app, Hpre, Hpost. reflexivity. }
  split; [|split; [exact Hsecs|]].
  - rewrite (get_ntp_time_run env fuel tz_offset dbg self pool Hassoc Hpool).
    rewrite Hsend, Hrecv. cbv zeta.
    rewrite (firstn_all2 reply) by lia.
    rewrite Hsecs, Hlocal.
    eexists. split; [reflexivity|]. destruct dbg; reflexivity.
  - intros HT Htz. rewrite Hsecs, HT, Htz. reflexivity.
Qed.

(** C7 --- On an associated manager with a pool: a reply of fewer than 48
    bytes makes [get_ntp_time] raise the error of [struct.unpack]; an error
    raised by [recvfrom_into] (the socket's timeout, set to 30 seconds)
    comes out of [get_ntp_time] as it is.  In both cases the RTC is not
    written and the last call made is the closing of the socket. *)
Theorem get_ntp_time_failures (env : Env) (fuel : nat) (tz_offset : Z) (dbg : bool)
    (self : WiFiManager) (pool : SocketPool) :
  ap_info (radio self) <> None ->
  _pool self = Some pool ->
  socket_sendto env ntp_msg "pool.ntp.org" 123 = inr tt ->
  let calls :=
    [EvSocket; EvSetTimeout 30; EvSendTo ntp_msg "pool.ntp.org" 123;
     EvRecvFromInto 1024; EvSocketClose] in
  (forall reply,
     socket_recvfrom_into env = inr reply ->
     (length reply < 48)%nat ->
     exists e self',
       get_ntp_time env fuel tz_offset dbg self = Raise e self' /\
       exn_cls e = StructError /\
       rtc_datetime (world self') = rtc_datetime (world self) /\
       trace (world self') = trace (world self) ++ calls)
  /\
  (forall e,
     socket_recvfrom_into env = inl e ->
     exists self',
       get_ntp_time env fuel tz_offset dbg self = Raise e self' /\
       rtc_datetime (world self') = rtc_datetime (world self) /\
       trace (world self') = trace (world self) ++ calls).
Proof.
  intros Hassoc Hpool Hsend calls.
  rewrite (get_ntp_time_run env fuel tz_offset dbg self pool Hassoc Hpool), Hsend.
  split.
  - intros reply Hrecv Hshort. rewrite Hrecv. cbv zeta.
    rewrite ntp_seconds_short by (rewrite length_take; lia).
    eexists _, _. split; [reflexivity|]. split; [reflexivity|].
    split; [reflexivity|]. simpl. rewrite <- !app_assoc. reflexivity.
  - intros e Hrecv. rewrite Hrecv.
    eexists. split; [reflexivity|].
    split; [reflexivity|]. simpl. rewrite <- !app_assoc. reflexivity.
Qed.

(** ** The constructor *)

(** C10 (amended) --- The constructor raises [KeyError] on secrets without
    "ssid".  With "ssid" and without "password", the [password] attribute is
    [None].  For a scalar ssid, [_get_next_ap] then returns (ssid, None),
    every call of [radio.connect] made by [connect_normal] is on
    (ssid, None), and when the radio fails k times and then associates there
    are k+1 such calls.  For a list or tuple of SSIDs, [connect_normal]
    raises the [NotImplementedError] of [_get_next_ap] with the object
    untouched: [radio.connect] is not called. *)
Theorem init_ssid_mandatory_password_optional (env : Env) (radio0 : Radio)
    (secrets : gmap string value) (status_pixel : option StatusPixel)
    (connection_type : Z) (debug0 : bool) (w : World) :
  (secrets !! "ssid"%string = None ->
   __init__ radio0 secrets status_pixel connection_type debug0 w =
     inl (Exn KeyError "ssid"))
  /\
  (forall v, secrets !! "ssid"%string = Some v ->
     secrets !! "password"%string = None ->
     exists self,
       __init__ radio0 secrets status_pixel connection_type debug0 w = inr self /\
       ssid self = v /\ password self = VNone /\
       (is_seq v = false ->
        _get_next_ap self = Ret (v, VNone) self /\
        (forall fuel,
           match connect_normal env fuel self with
           | Ret _ self' | Raise _ self' =>
               exists n, attempts (trace (world self')) =
                           attempts (trace w) ++ repeat (v, VNone) n
           | OutOfFuel => True
           end) /\
        (forall k info fuel,
           ap_info radio0 = None ->
           fails_then_succeeds env (connect_calls radio0) k v VNone info ->
           (k < fuel)%nat ->
           exists self',
             connect_normal env fuel self = Ret tt self' /\
             attempts (trace (world self')) =
               attempts (trace w) ++ repeat (v, VNone) (S k))) /\
       (is_seq v = true ->
        forall fuel,
          exists e,
            connect_normal env fuel self = Raise e self /\
            exn_cls e = NotImplementedError)).
Proof.
  split.
  - intros H. unfold __init__. rewrite H. reflexivity.
  - intros v Hs Hp. unfold __init__. rewrite Hs, Hp. simpl default.
    eexists. split; [reflexivity|].
    set (self := write_pixel _ _).
    assert (Hssid : ssid self = v).
    { subst self. unfold write_pixel. simpl.
      destruct status_pixel as [px|]; [destruct (has_color px)|]; reflexivity. }
    assert (Hpw : password self = VNone).
    { subst self. unfold write_pixel. simpl.
      destruct status_pixel as [px|]; [destruct (has_color px)|]; reflexivity. }
    assert (Hradio : radio self = radio0)
      by (subst self; rewrite radio_write_pixel; reflexivity).
    assert (Hatt : attempts (trace (world self)) = attempts (trace w))
      by (subst self; rewrite attempts_write_pixel; reflexivity).
    split; [exact Hssid|]. split; [exact Hpw|].
    split; [|intros Hlist fuel; unfold connect_normal, bind, _get_next_ap;
              rewrite Hssid, Hpw, Hlist; eexists; split; reflexivity].
    intros Hscalar.
    assert (Hfetch : _get_next_ap self = Ret (v, VNone) self).
    { unfold _get_next_ap. rewrite Hssid, Hpw, Hscalar. reflexivity. }
    split; [exact Hfetch|]. split.
    + intros fuel. unfold connect_normal, bind. rewrite Hfetch. cbn [fst snd].
      pose proof (connect_loop_exit env v VNone fuel O self) as Hexit.
      rewrite <- Hatt.
      destruct (connect_loop env fuel v VNone O self) as [[] self'|e self'|];
        [destruct Hexit as (_ & Hn & _)|destruct Hexit as (_ & _ & Hn & _)|exact I];
        exact Hn.
    + intros k info fuel Hnone Hscript Hfuel.
      unfold connect_normal, bind. rewrite Hfetch. cbn [fst snd].
      rewrite <- Hradio in Hnone, Hscript.
      destruct (connect_loop_retries env v VNone info k fuel O self Hnone Hscript Hfuel)
        as (self' & Hrun & Hatt' & _).
      exists self'. rewrite <- Hatt. auto.
Qed.

(** * Examples *)

(** The scenario of the spec: two pairs, the radio fails once and then
    associates.  ("A", "a") is tried twice, ("B", "b") never, and the cursor
    has moved by one. *)
Lemma connect_normal_retries_same_pair_witness :
  _get_next_ap two_aps = Ret (VStr "A", VStr "a") (set_ap_index 1 two_aps) /\
  exists self',
    connect_normal flaky_env 2 two_aps = Ret tt self' /\
    attempts (trace (world self')) = [(VStr "A", VStr "a"); (VStr "A", VStr "a")] /\
    _ap_index self' = 1%nat /\
    ap_info (radio self') = Some home_ap.
Proof.
  split; [reflexivity|].
  destruct (connect_normal_retries_same_pair flaky_env two_aps (set_ap_index 1 two_aps)
              (VStr "A") (VStr "a") eq_refl) as [Hretry _].
  apply (Hretry 1%nat home_ap 2%nat).
  - reflexivity.
  - split.
    + intros i Hi. exists (Exn RuntimeError "No network with that ssid").
      destruct i as [|i]; [split; reflexivity|lia].
    + reflexivity.
  - lia.
Defined.

Lemma ensure_connected_idempotent_witness :
  ap_info (radio linked) <> None /\
  ensure_connected flaky_env 0 linked = Ret tt linked /\
  exists self',
    final (run flaky_env 0 (OpGet "http://example.com/" []) linked) = Some self' /\
    attempts (trace (world self')) = [] /\
    connect_calls (radio self') = 1%nat.
Proof.
  assert (H : ap_info (radio linked) <> None) by discriminate.
  split; [exact H|].
  destruct (ensure_connected_idempotent flaky_env 0 linked
              (OpGet "http://example.com/" []) H)
    as (Hg & _ & self' & Hrun & Hatt & Hcalls & _).
  split; [exact Hg|]. exists self'. auto.
Defined.

Lemma get_next_ap_round_robin_witness :
  fetches 2 two_aps =
    Ret [(VStr "A", VStr "a"); (VStr "B", VStr "b")] two_aps /\
  exists self',
    fetches 3 two_aps =
      Ret [(VStr "A", VStr "a"); (VStr "B", VStr "b"); (VStr "A", VStr "a")] self'.
Proof.
  apply (get_next_ap_round_robin two_aps); try reflexivity. simpl. lia.
Defined.

Lemma get_next_ap_rejects_malformed_witness :
  malformed mixed_aps /\
  exists e m,
    _get_next_ap mixed_aps = Raise e m /\ exn_cls e = NotImplementedError.
Proof.
  assert (H : malformed mixed_aps) by (do 3 right; discriminate).
  split; [exact H|].
  destruct (get_next_ap_rejects_malformed mixed_aps H) as [(e & m & Hrun & _ & _ & Hcls) _].
  exists e, m. split; [exact Hrun|]. apply Hcls. discriminate.
Defined.

Lemma get_next_ap_error_atomic_witness :
  malformed uneven_aps /\
  exists e, _get_next_ap uneven_aps = Raise e uneven_aps.
Proof.
  assert (H : malformed uneven_aps).
  { left. split; [reflexivity|]. split; [reflexivity|]. discriminate. }
  split; [exact H|].
  destruct (get_next_ap_error_atomic uneven_aps H) as (e & Hrun & _).
  exists e. exact Hrun.
Defined.

Lemma request_status_signals_witness :
  (exists self',
     request flaky_env POST 0 "http://example.com/" [] linked =
       Ret {| status_code := 200; text := "ok" |} self' /\
     option_map shown (statuspix self') = Some (Some (PRGB 0 0 100))) /\
  (exists self',
     request flaky_env GET 0 "http://example.com/" [] linked =
       Ret {| status_code := 200; text := "ok" |} self' /\
     trace (world self') =
       [EvPixelFill (PRGB 0 0 100); EvRequest GET "http://example.com/" [];
        EvPixelFill (PInt 0)] /\
     option_map shown (statuspix self') = Some (Some (PInt 0))).
Proof.
  assert (H : ap_info (radio linked) <> None) by discriminate.
  split.
  - destruct (request_status_signals flaky_env POST 0 "http://example.com/" [] linked
                Session_of_pool neopixel {| status_code := 200; text := "ok" |}
                H eq_refl eq_refl eq_refl) as (self' & Hrun & _ & _ & Hshown).
    exists self'. split; assumption.
  - destruct (request_status_signals flaky_env GET 0 "http://example.com/" [] linked
                Session_of_pool neopixel {| status_code := 200; text := "ok" |}
                H eq_refl eq_refl eq_refl) as (self' & Hrun & _ & Htrace & Hshown).
    exists self'. split; [assumption|]. split; assumption.
Defined.

Lemma get_ntp_time_sets_clock_witness :
  ntp_seconds ntp_reply 0 = inr 1700000000 /\
  exists self',
    get_ntp_time flaky_env 0 0 false linked = Ret tt self' /\
    rtc_datetime (world self') = Some time_2023.
Proof.
  assert (H : ap_info (radio linked) <> None) by discriminate.
  destruct (get_ntp_time_sets_clock flaky_env 0 0 false linked SocketPool_of_radio
              ntp_reply_head ntp_reply_tail xe8 xfe x6f x80 time_2023
              H eq_refl eq_refl eq_refl eq_refl eq_refl eq_refl)
    as (Hrun & _ & Hsecs).
  split; [|exact Hrun].
  apply Hsecs; reflexivity.
Defined.

Lemma get_ntp_time_failures_witness :
  (exists e self',
     get_ntp_time short_env 0 0 false linked = Raise e self' /\
     exn_cls e = StructError /\
     rtc_datetime (world self') = None) /\
  (exists self',
     get_ntp_time timeout_env 0 0 false linked =
       Raise (Exn TimeoutError "timed out") self' /\
     rtc_datetime (world self') = None).
Proof.
  assert (H : ap_info (radio linked) <> None) by discriminate.
  split.
  - destruct (get_ntp_time_failures short_env 0 0 false linked SocketPool_of_radio
                H eq_refl eq_refl) as [Hshort _].
    destruct (Hshort short_reply eq_refl ltac:(simpl; lia))
      as (e & self' & Hrun & Hcls & Hrtc & _).
    exists e, self'. auto.
  - destruct (get_ntp_time_failures timeout_env 0 0 false linked SocketPool_of_radio
                H eq_refl eq_refl) as [_ Htimeout].
    destruct (Htimeout (Exn TimeoutError "timed out") eq_refl)
      as (self' & Hrun & Hrtc & _).
    exists self'. auto.
Defined.

(** C3 --- After a successful [connect] the pool exists, and [deinit]
    raises [TypeError]: [close()] is called, and the [None] it returns is
    called in its turn.  The pool attribute is kept, so a second [deinit]
    raises again. *)
Theorem deinit_after_connect_raises :
  exists m1 m2 m3,
    connect flaky_env 2 two_aps = Ret tt m1 /\
    _pool m1 = Some SocketPool_of_radio /\
    deinit flaky_env m1 = Raise (Exn TypeError "object is not callable") m2 /\
    _pool m2 = Some SocketPool_of_radio /\
    deinit flaky_env m2 = Raise (Exn TypeError "object is not callable") m3.
Proof.
  do 3 eexists. split; [vm_compute; reflexivity|].
  split; [reflexivity|]. split; [vm_compute; reflexivity|].
  split; [reflexivity|]. vm_compute; reflexivity.
Qed.

Lemma init_ssid_mandatory_password_optional_witness :
  __init__ idle_radio {[ "password"%string := VStr "a" ]} None NORMAL false blank_world
    = inl (Exn KeyError "ssid") /\
  exists self,
    __init__ idle_radio {[ "ssid"%string := VStr "cafe" ]} None NORMAL false blank_world
      = inr self /\
    password self = VNone /\
    _get_next_ap self = Ret (VStr "cafe", VNone) self /\
    exists self',
      connect_normal flaky_env 2 self = Ret tt self' /\
      attempts (trace (world self')) = [(VStr "cafe", VNone); (VStr "cafe", VNone)].
Proof.
  split.
  - apply (init_ssid_mandatory_password_optional flaky_env idle_radio
             {[ "password"%string := VStr "a" ]} None NORMAL false blank_world).
    vm_compute. reflexivity.
  - destruct (init_ssid_mandatory_password_optional flaky_env idle_radio
                {[ "ssid"%string := VStr "cafe" ]} None NORMAL false blank_world)
      as [_ Hopen].
    destruct (Hopen (VStr "cafe")) as (self & Hinit & _ & Hpw & Hrest & _);
      [vm_compute; reflexivity|vm_compute; reflexivity|].
    destruct (Hrest eq_refl) as (Hfetch & _ & Hretry).
    exists self. split; [exact Hinit|]. split; [exact Hpw|]. split; [exact Hfetch|].
    destruct (Hretry 1%nat home_ap 2%nat) as (self' & Hrun & Hatt).
    + reflexivity.
    + split.
      * intros i Hi. exists (Exn RuntimeError "No network with that ssid").
        destruct i as [|i]; [split; reflexivity|lia].
      * reflexivity.
    + lia.
    + exists self'. split; [exact Hrun|exact Hatt].
Defined.

(** Two SSIDs and no password, on a radio that would accept any call: the
    constructor gives [password = None], but [connect_normal] raises
    [NotImplementedError] whatever the fuel, and [radio.connect] is never
    called, so that [None] does not reach the radio. *)
Lemma init_list_ssid_without_password_counterexample :
  list_ssid_secrets !! "password"%string = None /\
  radio_connect open_env O (VStr "A") VNone =
    {| raised := None; info_after := Some home_ap |} /\
  exists self,
    __init__ idle_radio list_ssid_secrets None NORMAL false blank_world = inr self /\
    password self = VNone /\
    attempts (trace (world self)) = [] /\
    (forall fuel,
       exists e,
         connect_normal open_env fuel self = Raise e self /\
         exn_cls e = NotImplementedError) /\
    ~ (exists fuel self',
         connect_normal open_env fuel self = Ret tt self').
Proof.
  split; [vm_compute; reflexivity|]. split; [reflexivity|].
  eexists. split; [vm_compute; reflexivity|].
  split; [reflexivity|]. split; [reflexivity|]. split.
  - intros fuel. eexists. split; reflexivity.
  - intros (fuel & self' & H). discriminate H.
Qed.

(** Secrets of an open network: no password. *)
Example init_open_network :
  exists self,
    __init__ idle_radio {[ "ssid"%string := VStr "cafe" ]} None NORMAL false blank_world
      = inr self /\
    password self = VNone /\
    attempts (trace (world self)) = [] /\
    exists self',
      connect_normal flaky_env 2 self = Ret tt self' /\
      attempts (trace (world self')) = [(VStr "cafe", VNone); (VStr "cafe", VNone)].
Proof.
  eexists. split; [vm_compute; reflexivity|].
  split; [reflexivity|]. split; [reflexivity|].
  eexists. split; [vm_compute; reflexivity|]. reflexivity.
Qed.

Example init_without_ssid :
  __init__ idle_radio {[ "password"%string := VStr "a" ]} None NORMAL false blank_world
    = inl (Exn KeyError "ssid").
Proof. vm_compute. reflexivity. Qed.

(** * Further properties *)

(** ** More on the rotation *)

(** X1 --- With a scalar SSID and a scalar password, [_get_next_ap] returns
    that pair at every call and leaves the object as it was. *)
Theorem get_next_ap_scalar_constant (self : WiFiManager) (n : nat) :
  is_seq (ssid self) = false ->
  is_seq (password self) = false ->
  fetches n self = Ret (repeat (ssid self, password self) n) self.
Proof.
  intros Hs Hp.
  assert (H1 : _get_next_ap self = Ret (ssid self, password self) self)
    by (unfold _get_next_ap; rewrite Hs, Hp; reflexivity).
  induction n as [|n IH]; [reflexivity|].
  cbn [fetches repeat]. unfold bind at 1. rewrite H1.
  unfold bind at 1. rewrite IH. reflexivity.
Qed.

Lemma get_next_ap_scalar_constant_witness :
  fetches 3 one_ap =
    Ret [(VStr "A", VStr "a"); (VStr "A", VStr "a"); (VStr "A", VStr "a")] one_ap.
Proof. apply (get_next_ap_scalar_constant one_ap 3); reflexivity. Defined.

Lemma next_cursor_mod (N i : nat) :
  (i < N)%nat -> (if (N <=? S i)%nat then O else S i) = (S i mod N)%nat.
Proof.
  intros Hi. destruct (Nat.leb_spec N (S i)).
  - assert (S i = N) by lia. subst N. symmetry. apply Nat.Div0.mod_same.
  - symmetry. apply Nat.mod_small. lia.
Qed.

(** X2 --- On two sequences of the same length N, with the cursor at any
    i < N: the j-th of n consecutive calls of [_get_next_ap] (j counted from
    0) returns the pair of index (i + j) mod N, and after the n calls the
    cursor is (i + n) mod N, nothing else being changed. *)
Theorem get_next_ap_modular (n : nat) :
  forall self : WiFiManager,
    is_seq (ssid self) = true ->
    is_seq (password self) = true ->
    length (seq_items (ssid self)) = length (seq_items (password self)) ->
    (_ap_index self < length (seq_items (ssid self)))%nat ->
    let N := length (seq_items (ssid self)) in
    let pairs := zip (seq_items (ssid self)) (seq_items (password self)) in
    exists l,
      fetches n self = Ret l (set_ap_index ((_ap_index self + n) mod N) self) /\
      length l = n /\
      forall j, (j < n)%nat -> l !! j = pairs !! ((_ap_index self + j) mod N)%nat.
Proof.
  induction n as [|n IH]; intros self Hs Hp Hlen Hi N pairs.
  - exists []. rewrite Nat.add_0_r, Nat.mod_small by exact Hi.
    rewrite set_ap_index_same. repeat split. intros j Hj. lia.
  - destruct (lookup_lt_is_Some_2 (seq_items (ssid self)) _ Hi) as [s Hsi].
    assert (Hi' : (_ap_index self < length (seq_items (password self)))%nat) by lia.
    destruct (lookup_lt_is_Some_2 (seq_items (password self)) _ Hi') as [p Hpi].
    pose proof (get_next_ap_seq self s p Hs Hp Hlen Hsi Hpi) as Hstep.
    rewrite (next_cursor_mod _ _ Hi) in Hstep. fold N in Hstep.
    set (self1 := set_ap_index (S (_ap_index self) mod N) self) in *.
    assert (HN : (0 < N)%nat) by (subst N; lia).
    assert (Hi1 : (_ap_index self1 < length (seq_items (ssid self1)))%nat).
    { subst self1. simpl. fold N. apply Nat.mod_upper_bound. lia. }
    destruct (IH self1 Hs Hp Hlen Hi1) as (l & Hrun & Hlenl & Hl).
    exists ((s, p) :: l). split; [|split].
    + cbn [fetches]. unfold bind at 1. rewrite Hstep. unfold bind at 1.
      rewrite Hrun. unfold ret. subst self1. simpl. fold N.
      rewrite Nat.Div0.add_mod_idemp_l.
      replace (S (_ap_index self) + n)%nat with (_ap_index self + S n)%nat by lia.
      reflexivity.
    + simpl. rewrite Hlenl. reflexivity.
    + intros [|j] Hj.
      * rewrite Nat.add_0_r, Nat.mod_small by exact Hi.
        simpl. symmetry. subst pairs. apply lookup_zip_with_Some. eauto.
      * simpl. rewrite (Hl j) by lia. subst self1. simpl. fold N. fold pairs.
        rewrite Nat.Div0.add_mod_idemp_l.
        replace (S (_ap_index self) + j)%nat with (_ap_index self + S j)%nat by lia.
        reflexivity.
Qed.

Lemma get_next_ap_modular_witness :
  exists l,
    fetches 5 two_aps = Ret l (set_ap_index 1 two_aps) /\
    length l = 5%nat /\
    l !! 4%nat = Some (VStr "A", VStr "a").
Proof.
  destruct (get_next_ap_modular 5 two_aps eq_refl eq_refl eq_refl ltac:(simpl; lia))
    as (l & Hrun & Hlen & Hl).
  exists l. split; [exact Hrun|]. split; [exact Hlen|].
  rewrite (Hl 4%nat) by lia. reflexivity.
Defined.

(** X3 --- Whenever [_get_next_ap] returns on two sequences, it returns the
    SSID and the password under the old cursor, the new cursor is within the
    sequence, and the cursor is all that was changed. *)
Theorem get_next_ap_cursor_in_range (self self' : WiFiManager) (ap : value * value) :
  is_seq (ssid self) = true ->
  is_seq (password self) = true ->
  _get_next_ap self = Ret ap self' ->
  seq_items (ssid self) !! _ap_index self = Some (fst ap) /\
  seq_items (password self) !! _ap_index self = Some (snd ap) /\
  (_ap_index self' < length (seq_items (ssid self')))%nat /\
  self' = set_ap_index (_ap_index self') self.
Proof.
  intros Hs Hp. unfold _get_next_ap. rewrite Hs, Hp. simpl.
  destruct (negb (truthy (ssid self)) || negb (truthy (password self))); [discriminate|].
  destruct (negb _); [discriminate|].
  destruct (seq_items (ssid self) !! _ap_index self) as [s|] eqn:Hsi; [|discriminate].
  destruct (seq_items (password self) !! _ap_index self) as [p|] eqn:Hpi; [|discriminate].
  pose proof (lookup_lt_Some _ _ _ Hsi) as Hlt.
  intros [= <- <-]. split; [reflexivity|]. split; [reflexivity|].
  destruct (Nat.leb_spec (length (seq_items (ssid self))) (S (_ap_index self)));
    simpl; split; (lia || reflexivity).
Qed.

Lemma get_next_ap_cursor_in_range_witness :
  _get_next_ap two_aps = Ret (VStr "A", VStr "a") (set_ap_index 1 two_aps) /\
  (_ap_index (set_ap_index 1 two_aps) < 2)%nat.
Proof.
  split; [reflexivity|].
  apply (get_next_ap_cursor_in_range two_aps (set_ap_index 1 two_aps)
           (VStr "A", VStr "a") eq_refl eq_refl eq_refl).
Defined.

(** ** More on the retry loop *)

Section LoopMore.

Context (env : Env).

Lemma connect_loop_keeps_failing s p (fuel : nat) :
  forall fc self,
    ap_info (radio self) = None ->
    (forall n, (connect_calls (radio self) <= n)%nat ->
       exists e, radio_connect env n s p = {| raised := Some e; info_after := None |}
                 /\ recoverable e = true) ->
    connect_loop env fuel s p fc self = OutOfFuel.
Proof.
  induction fuel as [|fuel IH]; intros fc self Hnone Hfail.
  - simpl. rewrite Hnone. reflexivity.
  - rewrite (connect_loop_step _ _ _ _ _ _ Hnone). cbv zeta.
    rewrite radio_before_attempt.
    destruct (Hfail (connect_calls (radio self)) (le_n _)) as (e & He & Hrec).
    rewrite He. simpl raised. cbv beta iota. rewrite Hrec.
    apply IH.
    + unfold dial. simpl. rewrite radio_before_attempt, He. reflexivity.
    + intros n Hn. apply Hfail. revert Hn. unfold dial. simpl.
      rewrite radio_before_attempt. lia.
Qed.

(** X4 --- [connect_normal] has no cap on its retries: while every call of
    [radio.connect] on the fetched pair raises a [ValueError] or a
    [RuntimeError] and leaves the radio unassociated, no number of
    iterations brings the loop to an end. *)
Theorem connect_normal_never_gives_up (self self1 : WiFiManager) (s p : value) :
  _get_next_ap self = Ret (s, p) self1 ->
  ap_info (radio self) = None ->
  (forall n, (connect_calls (radio self) <= n)%nat ->
     exists e, radio_connect env n s p = {| raised := Some e; info_after := None |}
               /\ recoverable e = true) ->
  forall fuel, connect_normal env fuel self = OutOfFuel.
Proof.
  intros Hfetch Hnone Hfail fuel.
  destruct (get_next_ap_frame _ _ _ Hfetch) as [i ->].
  unfold connect_normal, bind. rewrite Hfetch. cbn [fst snd].
  apply connect_loop_keeps_failing; assumption.
Qed.

(** X5 --- An error of [radio.connect] that is neither a [ValueError] nor a
    [RuntimeError] is not retried: [connect_normal] raises it after that
    single call, and a status pixel is left on (100, 0, 0). *)
Theorem connect_normal_fatal_error (self self1 : WiFiManager) (s p : value)
    (e : exn) (fuel : nat) :
  _get_next_ap self = Ret (s, p) self1 ->
  ap_info (radio self) = None ->
  raised (radio_connect env (connect_calls (radio self)) s p) = Some e ->
  recoverable e = false ->
  (0 < fuel)%nat ->
  exists self',
    connect_normal env fuel self = Raise e self' /\
    attempts (trace (world self')) = attempts (trace (world self)) ++ [(s, p)] /\
    connect_calls (radio self') = S (connect_calls (radio self)) /\
    pixel_shown self' = option_map (fun _ => Some (PRGB 100 0 0)) (statuspix self).
Proof.
  intros Hfetch Hnone He Hrec Hfuel.
  destruct (get_next_ap_frame _ _ _ Hfetch) as [i ->].
  destruct fuel as [|fuel]; [lia|].
  unfold connect_normal, bind. rewrite Hfetch. cbn [fst snd].
  rewrite connect_loop_step by exact Hnone. cbv zeta.
  rewrite radio_before_attempt. simpl radio. rewrite He, Hrec.
  eexists. split; [reflexivity|].
  unfold dial, before_attempt, write_pixel, pixel_shown. simpl.
  destruct (debug self); simpl;
    (destruct (statuspix self) as [px|] eqn:Hpx; simpl; [destruct (has_color px); simpl|]);
    rewrite ?Hpx, ?attempts_app; simpl; rewrite ?attempts_app; simpl;
    rewrite ?app_nil_r; repeat split; reflexivity.
Qed.

End LoopMore.

Lemma connect_normal_never_gives_up_witness :
  connect_normal dead_env 1000 two_aps = OutOfFuel.
Proof.
  apply (connect_normal_never_gives_up dead_env two_aps (set_ap_index 1 two_aps)
           (VStr "A") (VStr "a")); try reflexivity.
  intros n _. eexists. split; reflexivity.
Defined.

Lemma connect_normal_fatal_error_witness :
  exists self',
    connect_normal refused_env 5 two_aps =
      Raise (Exn ConnectionError "Authentication failure") self' /\
    attempts (trace (world self')) = [(VStr "A", VStr "a")] /\
    pixel_shown self' = Some (Some (PRGB 100 0 0)).
Proof.
  destruct (connect_normal_fatal_error refused_env two_aps (set_ap_index 1 two_aps)
              (VStr "A") (VStr "a") (Exn ConnectionError "Authentication failure") 5
              eq_refl eq_refl eq_refl eq_refl ltac:(lia))
    as (self' & Hrun & Hatt & _ & Hpix).
  exists self'. split; [exact Hrun|]. split; [exact Hatt|exact Hpix].
Defined.

(** ** [connect] *)

Lemma set_world_same (m : WiFiManager) :
  set_world {| rtc_datetime := rtc_datetime (world m); trace := trace (world m) |} m = m.
Proof. destruct m as [? ? ? ? ? ? ? ? ? ? ? ? ? []]; reflexivity. Qed.

Lemma print_each_run (l : list (string * Z)) :
  forall m,
    fold_right (fun ap k => log (EvPrint (fst ap)) ;;; k) (ret tt) l m =
      Ret tt (set_world {| rtc_datetime := rtc_datetime (world m);
                           trace := trace (world m) ++
                                    map (fun ap => EvPrint (fst ap)) l |} m).
Proof.
  induction l as [|ap l IH]; intros m.
  - simpl. rewrite app_nil_r, set_world_same. reflexivity.
  - cbn [fold_right map]. unfold bind at 1, log at 1, do at 1.
    rewrite IH. unfold emit, set_world. simpl. rewrite <- app_assoc. reflexivity.
Qed.

Lemma print_networks_run (self : WiFiManager) :
  print_networks self =
    Ret tt (set_world {| rtc_datetime := rtc_datetime (world self);
                         trace := trace (world self) ++ scan_log self |} self).
Proof.
  unfold print_networks, bind at 1, this. unfold bind at 1, log at 1, do at 1.
  unfold bind at 1, log at 1, do at 1. unfold bind at 1.
  rewrite print_each_run. unfold log, do, emit, set_world, scan_log. simpl.
  rewrite <- !app_assoc. reflexivity.
Qed.

Lemma attempts_prints (l : list (string * Z)) :
  attempts (map (fun ap => EvPrint (fst ap)) l) = [].
Proof. induction l; simpl; auto. Qed.

Lemma pools_created_prints (l : list (string * Z)) :
  pools_created (map (fun ap => EvPrint (fst ap)) l) = O.
Proof. induction l; simpl; auto. Qed.

(** The diagnostics change the log only, and add nothing that counts. *)
Lemma quiet_diagnosed (self : WiFiManager) : quiet self (diagnosed self).
Proof.
  unfold diagnosed. destruct (debug self); [|apply quiet_refl].
  repeat split; simpl; unfold scan_log.
  - rewrite !attempts_app, attempts_prints. simpl. apply app_nil_r.
  - rewrite !pools_created_app, pools_created_prints. simpl. lia.
Qed.

Lemma get_next_ap_set_world (w : World) (self : WiFiManager) :
  _get_next_ap (set_world w self) =
    match _get_next_ap self with
    | Ret ap m => Ret ap (set_world w m)
    | Raise e m => Raise e (set_world w m)
    | OutOfFuel => OutOfFuel
    end.
Proof.
  unfold _get_next_ap. simpl.
  destruct (is_seq (ssid self) && is_seq (password self)).
  - destruct (negb (truthy (ssid self)) || negb (truthy (password self))); [reflexivity|].
    destruct (negb _); [reflexivity|].
    destruct (seq_items (ssid self) !! _ap_index self); [|reflexivity].
    destruct (seq_items (password self) !! _ap_index self); [|reflexivity].
    destruct (_ <=? _)%nat; reflexivity.
  - destruct (is_seq (ssid self) || is_seq (password self)); reflexivity.
Qed.

(** A fetch after the diagnostics is the fetch before them. *)
Lemma get_next_ap_diagnosed (self self1 : WiFiManager) (ap : value * value) :
  _get_next_ap self = Ret ap self1 ->
  exists m,
    _get_next_ap (diagnosed self) = Ret ap m /\
    quiet self1 m /\ _ap_index m = _ap_index self1.
Proof.
  intros H. unfold diagnosed. destruct (debug self) eqn:Hd.
  - rewrite get_next_ap_set_world, H. eexists. split; [reflexivity|].
    destruct (get_next_ap_frame _ _ _ H) as [i ->].
    pose proof (quiet_diagnosed self) as Hq. unfold diagnosed in Hq. rewrite Hd in Hq.
    split; [|reflexivity].
    destruct Hq as (Hr & Ha & Hp & Hi & Hpool & Hreq). repeat split; assumption.
  - exists self1. split; [exact H|]. split; [apply quiet_refl|reflexivity].
Qed.

Lemma kept_refl m : kept m m.
Proof. repeat split. Qed.

Lemma kept_trans m1 m2 m3 : kept m1 m2 -> kept m2 m3 -> kept m1 m3.
Proof. unfold kept. intuition congruence. Qed.

Lemma kept_write_pixel v m : kept m (write_pixel v m).
Proof.
  unfold write_pixel. destruct (statuspix m) as [px|] eqn:Hpx; [|apply kept_refl].
  destruct (has_color px) eqn:Hc; repeat split; simpl;
    rewrite ?pools_created_app, ?Hpx; simpl; rewrite ?Hc; auto; lia.
Qed.

Lemma kept_emit e m : silent e = true -> kept m (emit e m).
Proof.
  intros He. repeat split. simpl. rewrite pools_created_app.
  destruct e; try discriminate; simpl; lia.
Qed.

Lemma kept_attempt (env : Env) s p m : kept m (dial env s p (before_attempt m)).
Proof.
  apply kept_trans with (m2 := before_attempt m).
  - unfold before_attempt.
    apply kept_trans with
      (m2 := if debug m then emit (EvPrint "Connecting to AP...") m else m);
      [|apply kept_write_pixel].
    destruct (debug m); [apply kept_emit; reflexivity|apply kept_refl].
  - repeat split. unfold dial. simpl. rewrite pools_created_app. simpl. lia.
Qed.

(** The loop leaves the pool, the session and the kind of pixel alone. *)
Lemma connect_loop_kept (env : Env) s p (fuel : nat) :
  forall fc self,
    match connect_loop env fuel s p fc self with
    | Ret _ self' | Raise _ self' => kept self self'
    | OutOfFuel => True
    end.
Proof.
  induction fuel as [|fuel IH]; intros fc self.
  - simpl. destruct (ap_info (radio self)); [apply kept_refl|exact I].
  - destruct (ap_info (radio self)) as [info|] eqn:H.
    + rewrite (connect_loop_associated _ _ _ _ _ _ _ H). apply kept_refl.
    + rewrite (connect_loop_step _ _ _ _ _ _ H). cbv zeta.
      pose proof (kept_attempt env s p self) as Hstep.
      destruct (raised _) as [e|]; [destruct (recoverable e)|].
      * match goal with |- context [connect_loop env fuel s p ?c ?m] =>
          specialize (IH c m); destruct (connect_loop env fuel s p c m) end;
          try exact I;
          (eapply kept_trans; [|exact IH]);
          (eapply kept_trans; [exact Hstep|apply kept_emit; reflexivity]).
      * exact Hstep.
      * match goal with |- context [connect_loop env fuel s p ?c ?m] =>
          specialize (IH c m); destruct (connect_loop env fuel s p c m) end;
          try exact I;
          (eapply kept_trans; [|exact IH]);
          (eapply kept_trans; [exact Hstep|apply kept_write_pixel]).
Qed.


Lemma pixel_writes_app (t t' : list event) :
  pixel_writes (t ++ t') = pixel_writes t ++ pixel_writes t'.
Proof.
  induction t as [|e t IH]; [reflexivity|].
  destruct e; simpl; rewrite IH; reflexivity.
Qed.

Lemma sessions_created_app (t t' : list event) :
  sessions_created (t ++ t') = (sessions_created t + sessions_created t')%nat.
Proof.
  induction t as [|e t IH]; [reflexivity|].
  destruct e; simpl; rewrite IH; reflexivity.
Qed.

Lemma sessions_created_write_pixel v m :
  sessions_created (trace (world (write_pixel v m))) =
    sessions_created (trace (world m)).
Proof.
  unfold write_pixel. destruct (statuspix m) as [px|]; [destruct (has_color px)|];
    simpl; rewrite ?sessions_created_app; simpl; lia.
Qed.

Lemma sessions_created_emit e m :
  silent e = true ->
  sessions_created (trace (world (emit e m))) = sessions_created (trace (world m)).
Proof.
  intros He. simpl. rewrite sessions_created_app.
  destruct e; try discriminate; simpl; lia.
Qed.

Lemma sessions_created_attempt (env : Env) s p m :
  sessions_created (trace (world (dial env s p (before_attempt m)))) =
    sessions_created (trace (world m)).
Proof.
  unfold dial, before_attempt. simpl.
  rewrite sessions_created_app, sessions_created_write_pixel.
  destruct (debug m); simpl; rewrite ?sessions_created_app; simpl; lia.
Qed.

(** The retry loop creates no session. *)
Lemma connect_loop_sessions (env : Env) s p (fuel : nat) :
  forall fc self,
    match connect_loop env fuel s p fc self with
    | Ret _ self' | Raise _ self' =>
        sessions_created (trace (world self')) = sessions_created (trace (world self))
    | OutOfFuel => True
    end.
Proof.
  induction fuel as [|fuel IH]; intros fc self.
  - simpl. destruct (ap_info (radio self)); [reflexivity|exact I].
  - destruct (ap_info (radio self)) as [info|] eqn:H.
    + rewrite (connect_loop_associated _ _ _ _ _ _ _ H). reflexivity.
    + rewrite (connect_loop_step _ _ _ _ _ _ H). cbv zeta.
      pose proof (sessions_created_attempt env s p self) as Hstep.
      destruct (raised _) as [e|]; [destruct (recoverable e)|].
      * match goal with |- context [connect_loop env fuel s p ?c ?m] =>
          specialize (IH c m); destruct (connect_loop env fuel s p c m) end;
          try exact I; rewrite IH, sessions_created_emit by reflexivity;
          exact Hstep.
      * exact Hstep.
      * match goal with |- context [connect_loop env fuel s p ?c ?m] =>
          specialize (IH c m); destruct (connect_loop env fuel s p c m) end;
          try exact I; rewrite IH, sessions_created_write_pixel; exact Hstep.
Qed.

Lemma sessions_created_diagnosed (self : WiFiManager) :
  sessions_created (trace (world (diagnosed self))) =
    sessions_created (trace (world self)).
Proof.
  unfold diagnosed. destruct (debug self); [|reflexivity].
  simpl. unfold scan_log. rewrite !sessions_created_app.
  assert (Hprints : forall l : list (string * Z),
            sessions_created (map (fun ap => EvPrint (fst ap)) l) = O)
    by (induction l; simpl; auto).
  rewrite Hprints. simpl. lia.
Qed.

Section Connect.

Context (env : Env).

(** [connect], once the diagnostics are printed. *)
Lemma connect_run (fuel : nat) (self : WiFiManager) :
  connect env fuel self =
    match
      (if _connection_type self =? NORMAL then connect_normal env fuel
       else if _connection_type self =? ENTERPRISE then connect_enterprise
       else raise (Exn TypeError "Invalid WiFi connection type specified"))
        (diagnosed self)
    with
    | Ret _ m => Ret tt (with_session m)
    | Raise e m => Raise e m
    | OutOfFuel => OutOfFuel
    end.
Proof.
  unfold connect, bind at 1, this. unfold bind at 1.
  assert (Hpre : when (debug self) print_networks self = Ret tt (diagnosed self)).
  { unfold when, diagnosed. destruct (debug self); [apply print_networks_run|reflexivity]. }
  rewrite Hpre. unfold bind at 1.
  destruct (_connection_type self =? NORMAL);
    [destruct (connect_normal env fuel (diagnosed self)) as [[] ?|? ?|]; reflexivity|].
  destruct (_connection_type self =? ENTERPRISE); reflexivity.
Qed.

(** X6 --- [connect] with a connection type other than [NORMAL] raises at
    once: [NotImplementedError] for [ENTERPRISE], [TypeError] for any other
    value.  [radio.connect] is not called, the cursor is not moved, and no
    pool or session is created. *)
Theorem connect_other_types_raise (fuel : nat) (self : WiFiManager) :
  _connection_type self <> NORMAL ->
  exists e,
    connect env fuel self = Raise e (diagnosed self) /\
    exn_cls e = (if _connection_type self =? ENTERPRISE
                 then NotImplementedError else TypeError) /\
    quiet self (diagnosed self).
Proof.
  intros Hct. rewrite connect_run.
  destruct (Z.eqb_spec (_connection_type self) NORMAL) as [E|_]; [contradiction|].
  destruct (_connection_type self =? ENTERPRISE);
    (eexists; split; [reflexivity|]; split; [reflexivity|apply quiet_diagnosed]).
Qed.


(** X8 --- [connect] called on a radio that is already associated does not
    call [radio.connect], but it still fetches the next pair, which moves
    the cursor, and creates a new pool and a new session: after the
    diagnostics, what it logs is the creation of one pool and then of one
    session, and both attributes are set. *)
Theorem connect_while_associated (fuel : nat) (self self1 : WiFiManager)
    (ap : value * value) :
  ap_info (radio self) <> None ->
  _connection_type self = NORMAL ->
  _get_next_ap self = Ret ap self1 ->
  exists self',
    connect env fuel self = Ret tt self' /\
    attempts (trace (world self')) = attempts (trace (world self)) /\
    connect_calls (radio self') = connect_calls (radio self) /\
    _ap_index self' = _ap_index self1 /\
    pools_created (trace (world self')) = S (pools_created (trace (world self))) /\
    sessions_created (trace (world self')) =
      S (sessions_created (trace (world self))) /\
    trace (world self') =
      trace (world (diagnosed self)) ++ [EvNewPool; EvNewSession] /\
    _pool self' = Some SocketPool_of_radio /\
    _requests self' = Some Session_of_pool.
Proof.
  intros Hassoc Hct Hfetch. rewrite connect_run, Hct, Z.eqb_refl. cbv iota.
  destruct (get_next_ap_diagnosed _ _ _ Hfetch) as (m & Hm & Hq & Hidx).
  unfold connect_normal, bind. rewrite Hm.
  destruct (get_next_ap_frame _ _ _ Hm) as [j Hmj].
  assert (Hw : world m = world (diagnosed self)) by (rewrite Hmj; reflexivity).
  destruct (get_next_ap_frame _ _ _ Hfetch) as [i ->].
  destruct Hq as (Hr & Ha & Hp & _). simpl in Hr, Ha, Hp.
  destruct (ap_info (radio self)) as [info|] eqn:Hinfo; [|contradiction].
  rewrite (connect_loop_associated env fuel _ _ _ m info) by (rewrite Hr; exact Hinfo).
  eexists. split; [reflexivity|].
  unfold with_session. simpl.
  rewrite !attempts_app, !pools_created_app, !sessions_created_app. simpl.
  rewrite !app_nil_r, Ha, Hr, Hp, Hidx, Hw, sessions_created_diagnosed, <- app_assoc.
  repeat split; lia.
Qed.

(** A verb on an associated radio with a session: the pixel goes busy, the
    session is called, and the pixel is reset unless the call raised or the
    verb is POST. *)
Lemma request_associated_run (v : verb) (fuel : nat) (url : string)
    (kw : list (string * value)) (self : WiFiManager) (sess : Session) :
  ap_info (radio self) <> None ->
  _requests self = Some sess ->
  request env v fuel url kw self =
    let called := emit (EvRequest v url kw) (write_pixel busy self) in
    match session_request env v url kw with
    | inr r => Ret r match v with POST => called | _ => write_pixel off called end
    | inl e => Raise e called
    end.
Proof.
  intros Hassoc Hsess.
  destruct v; simpl request; unfold get, put, patch, delete, post, request_and_reset, bind;
    rewrite (ensure_connected_associated env fuel self Hassoc);
    unfold this; rewrite Hsess; simpl;
    unfold session_call, bind, log, do, lift; simpl;
    match goal with |- context [session_request env ?w url kw] =>
      destruct (session_request env w url kw) end; reflexivity.
Qed.

(** A verb starts with the guard: when the guard has returned [m], the verb
    goes on as if called on [m]. *)
Lemma request_after_guard (v : verb) (fuel : nat) (url : string)
    (kw : list (string * value)) (self m : WiFiManager) :
  ensure_connected env fuel self = Ret tt m ->
  ap_info (radio m) <> None ->
  request env v fuel url kw self = request env v fuel url kw m.
Proof.
  intros Hg Hm. pose proof (ensure_connected_associated env fuel m Hm) as Hgm.
  destruct v; simpl request; unfold get, put, patch, delete, post, request_and_reset;
    unfold bind at 1; rewrite Hg; symmetry; unfold bind at 1; rewrite Hgm; reflexivity.
Qed.

(** X9 --- A verb called on an unassociated manager of type [NORMAL]
    connects first: when the radio fails k times with a caught error and then
    associates, and the HTTP call returns, the verb returns the response
    after k+1 calls of [radio.connect] on the fetched pair, with exactly one
    pool and exactly one session created, both attributes set. *)
Theorem request_connects_first (v : verb) (fuel : nat) (url : string)
    (kw : list (string * value)) (self self1 : WiFiManager) (s p : value)
    (k : nat) (info : APInfo) (resp : Response) :
  ap_info (radio self) = None ->
  _connection_type self = NORMAL ->
  _get_next_ap self = Ret (s, p) self1 ->
  fails_then_succeeds env (connect_calls (radio self)) k s p info ->
  (k < fuel)%nat ->
  session_request env v url kw = inr resp ->
  exists self',
    request env v fuel url kw self = Ret resp self' /\
    attempts (trace (world self')) =
      attempts (trace (world self)) ++ repeat (s, p) (S k) /\
    ap_info (radio self') = Some info /\
    _pool self' = Some SocketPool_of_radio /\
    _requests self' = Some Session_of_pool /\
    pools_created (trace (world self')) = S (pools_created (trace (world self))) /\
    sessions_created (trace (world self')) =
      S (sessions_created (trace (world self))).
Proof.
  intros Hnone Hct Hfetch Hscript Hfuel Hresp.
  destruct (get_next_ap_diagnosed _ _ _ Hfetch) as (m0 & Hm0 & Hq & _).
  assert (Hs0 : sessions_created (trace (world m0)) =
                sessions_created (trace (world self))).
  { destruct (get_next_ap_frame _ _ _ Hm0) as [j ->]. simpl.
    apply sessions_created_diagnosed. }
  destruct (get_next_ap_frame _ _ _ Hfetch) as [i ->].
  destruct Hq as (Hr & Ha & Hp & _). simpl in Hr, Ha, Hp.
  destruct (connect_loop_retries env s p info k fuel O m0) as (m1 & Hloop & Hatt & _ & Hinfo);
    [rewrite Hr; exact Hnone|rewrite Hr; exact Hscript|exact Hfuel|].
  pose proof (connect_loop_kept env s p fuel O m0) as Hk. rewrite Hloop in Hk.
  destruct Hk as (_ & _ & Hpc & _).
  pose proof (connect_loop_sessions env s p fuel O m0) as Hs1. rewrite Hloop in Hs1.
  assert (Hg : ensure_connected env fuel self = Ret tt (with_session m1)).
  { unfold ensure_connected. rewrite Hnone, connect_run, Hct, Z.eqb_refl. cbv iota.
    unfold connect_normal, bind. rewrite Hm0. cbn [fst snd]. rewrite Hloop. reflexivity. }
  assert (Hassoc : ap_info (radio (with_session m1)) <> None)
    by (simpl; rewrite Hinfo; discriminate).
  rewrite (request_after_guard v fuel url kw self _ Hg Hassoc).
  rewrite (request_associated_run v fuel url kw _ Session_of_pool Hassoc eq_refl).
  cbv zeta. rewrite Hresp. eexists. split; [reflexivity|].
  assert (Hsess : sessions_created
                    (trace (world
                       match v with
                       | POST => emit (EvRequest v url kw)
                                   (write_pixel busy (with_session m1))
                       | _ => write_pixel off
                                (emit (EvRequest v url kw)
                                   (write_pixel busy (with_session m1)))
                       end)) = S (sessions_created (trace (world self)))).
  { assert (Hcalled : sessions_created
                        (trace (world (emit (EvRequest v url kw)
                                         (write_pixel busy (with_session m1))))) =
                      S (sessions_created (trace (world self)))).
    { simpl. rewrite sessions_created_app, sessions_created_write_pixel.
      unfold with_session. simpl. rewrite !sessions_created_app. simpl.
      rewrite Hs1, Hs0. lia. }
    destruct v; rewrite ?sessions_created_write_pixel; exact Hcalled. }
  cut (attempts (trace (world
                   match v with
                   | POST => emit (EvRequest v url kw)
                               (write_pixel busy (with_session m1))
                   | _ => write_pixel off
                            (emit (EvRequest v url kw)
                               (write_pixel busy (with_session m1)))
                   end)) =
         attempts (trace (world self)) ++ repeat (s, p) (S k) /\
       ap_info (radio
                  match v with
                  | POST => emit (EvRequest v url kw)
                              (write_pixel busy (with_session m1))
                  | _ => write_pixel off
                           (emit (EvRequest v url kw)
                              (write_pixel busy (with_session m1)))
                  end) = Some info /\
       _pool match v with
             | POST => emit (EvRequest v url kw)
                         (write_pixel busy (with_session m1))
             | _ => write_pixel off
                      (emit (EvRequest v url kw)
                         (write_pixel busy (with_session m1)))
             end = Some SocketPool_of_radio /\
       _requests match v with
                 | POST => emit (EvRequest v url kw)
                             (write_pixel busy (with_session m1))
                 | _ => write_pixel off
                          (emit (EvRequest v url kw)
                             (write_pixel busy (with_session m1)))
                 end = Some Session_of_pool /\
       pools_created (trace (world
                        match v with
                        | POST => emit (EvRequest v url kw)
                                    (write_pixel busy (with_session m1))
                        | _ => write_pixel off
                                 (emit (EvRequest v url kw)
                                    (write_pixel busy (with_session m1)))
                        end)) = S (pools_created (trace (world self)))).
  { intros (H1 & H2 & H3 & H4 & H5). repeat split; assumption. }
  assert (Hfin : forall m, quiet (with_session m1) m ->
            attempts (trace (world m)) =
              attempts (trace (world self)) ++ repeat (s, p) (S k) /\
            ap_info (radio m) = Some info /\
            _pool m = Some SocketPool_of_radio /\
            _requests m = Some Session_of_pool /\
            pools_created (trace (world m)) = S (pools_created (trace (world self)))).
  { intros m (Qr & Qa & Qp & _ & Qpool & Qreq).
    rewrite Qr, Qa, Qp, Qpool, Qreq. unfold with_session. simpl.
    rewrite !attempts_app, !pools_created_app. simpl.
    rewrite !app_nil_r, Hatt, Ha, Hinfo, Hpc, Hp. repeat split; lia. }
  apply Hfin.
  assert (Hcalled : quiet (with_session m1)
            (emit (EvRequest v url kw) (write_pixel busy (with_session m1)))).
  { eapply quiet_trans; [apply quiet_write_pixel|apply quiet_emit; reflexivity]. }
  destruct v; try (eapply quiet_trans; [exact Hcalled|apply quiet_write_pixel]);
    exact Hcalled.
Qed.

(** X10 --- When the HTTP call raises, the verb raises the same error and
    the status pixel is left on (0, 0, 100): none of the five verbs resets
    it on that path. *)
Theorem request_error_leaves_busy (v : verb) (fuel : nat) (url : string)
    (kw : list (string * value)) (self : WiFiManager) (sess : Session) (e : exn) :
  ap_info (radio self) <> None ->
  _requests self = Some sess ->
  session_request env v url kw = inl e ->
  exists self',
    request env v fuel url kw self = Raise e self' /\
    pixel_shown self' = option_map (fun _ => Some busy) (statuspix self) /\
    pixel_writes (trace (world self')) =
      pixel_writes (trace (world self)) ++
      match statuspix self with Some _ => [busy] | None => [] end.
Proof.
  intros Hassoc Hsess He.
  rewrite (request_associated_run v fuel url kw self sess Hassoc Hsess).
  cbv zeta. rewrite He. eexists. split; [reflexivity|].
  unfold pixel_shown, write_pixel.
  destruct (statuspix self) as [px|] eqn:Hpx; [destruct (has_color px)|]; simpl;
    rewrite ?Hpx, ?pixel_writes_app; simpl; rewrite ?pixel_writes_app; simpl;
    rewrite ?app_nil_r; split; reflexivity.
Qed.

(** X11 --- On a manager whose radio is associated but which never went
    through [connect] (no pool, no session): the five verbs, [ping] and
    [get_ntp_time] raise [AssertionError] and leave the object untouched (no
    pixel write, no call to a collaborator), while [ip_address] and
    [signal_strength] answer from the radio. *)
Theorem associated_without_session (fuel : nat) (self : WiFiManager) (info : APInfo) :
  ap_info (radio self) = Some info ->
  _pool self = None ->
  _requests self = None ->
  (forall v url kw,
     request env v fuel url kw self = Raise (Exn AssertionError "") self) /\
  (forall host timeout,
     ping env fuel host timeout self = Raise (Exn AssertionError "") self) /\
  (forall tz dbg,
     get_ntp_time env fuel tz dbg self = Raise (Exn AssertionError "") self) /\
  signal_strength env fuel self = Ret (rssi info) self /\
  ip_address env fuel self =
    Ret (ipv4_address (radio self)) (write_pixel off (write_pixel busy self)).
Proof.
  intros Hinfo Hpool Hreq.
  assert (Hassoc : ap_info (radio self) <> None) by (rewrite Hinfo; discriminate).
  pose proof (ensure_connected_associated env fuel self Hassoc) as Hg.
  repeat split.
  - intros v url kw.
    destruct v; simpl request;
      unfold get, put, patch, delete, post, request_and_reset, bind;
      rewrite Hg; unfold this; rewrite Hreq; reflexivity.
  - intros host timeout. unfold ping, bind. rewrite Hg. unfold this. rewrite Hpool.
    reflexivity.
  - intros tz dbg. unfold get_ntp_time, bind. cbv zeta. rewrite Hg. unfold this.
    rewrite Hpool. reflexivity.
  - unfold signal_strength, bind. rewrite Hg. unfold this. rewrite Hinfo. reflexivity.
  - unfold ip_address, bind. rewrite Hg. unfold pixel_status, do, this, ret.
    rewrite !radio_write_pixel. reflexivity.
Qed.

End Connect.

(** ** [ping] *)

(** X12 --- [ping] on an associated manager with a pool and a status pixel:
    when the name does not resolve, the error comes out, [radio.ping] is not
    called and the pixel stays on (0, 0, 100); when the name resolves and
    the radio answers, [ping] returns the radio's answer after one
    resolution on port 80 and one echo, and the pixel is back on 0. *)
Theorem ping_outcomes (env : Env) (fuel : nat) (host : string) (timeout : value)
    (self : WiFiManager) (pool : SocketPool) (px : StatusPixel) :
  ap_info (radio self) <> None ->
  _pool self = Some pool ->
  statuspix self = Some px ->
  (forall e,
     pool_getaddrinfo env host 80 = inl e ->
     exists self',
       ping env fuel host timeout self = Raise e self' /\
       trace (world self') =
         trace (world self) ++ [pixel_event px busy; EvGetAddrInfo host 80] /\
       pixel_shown self' = Some (Some busy))
  /\
  (forall addr ip response_time,
     pool_getaddrinfo env host 80 = inr addr ->
     ip_address_of env addr = inr ip ->
     radio_ping env ip timeout = inr response_time ->
     exists self',
       ping env fuel host timeout self = Ret response_time self' /\
       trace (world self') =
         trace (world self) ++
         [pixel_event px busy; EvGetAddrInfo host 80; EvPing ip timeout;
          pixel_event px off] /\
       pixel_shown self' = Some (Some off)).
Proof.
  intros Hassoc Hpool Hpx.
  assert (Hrun : ping env fuel host timeout self =
            let m1 := emit (EvGetAddrInfo host 80) (write_pixel busy self) in
            match pool_getaddrinfo env host 80 with
            | inl e => Raise e m1
            | inr addr =>
                match ip_address_of env addr with
                | inl e => Raise e m1
                | inr ip =>
                    let m2 := emit (EvPing ip timeout) m1 in
                    match radio_ping env ip timeout with
                    | inl e => Raise e m2
                    | inr rt => Ret rt (write_pixel off m2)
                    end
                end
            end).
  { unfold ping, bind. rewrite (ensure_connected_associated env fuel self Hassoc).
    unfold this. rewrite Hpool. simpl. unfold log, do, lift.
    destruct (pool_getaddrinfo env host 80) as [e|addr]; [reflexivity|].
    destruct (ip_address_of env addr) as [e|ip]; [reflexivity|].
    destruct (radio_ping env ip timeout); reflexivity. }
  rewrite Hrun. cbv zeta.
  destruct (write_pixel_present busy px self Hpx) as [Ht1 Hp1].
  split.
  - intros e He. rewrite He. eexists. split; [reflexivity|].
    unfold pixel_shown. simpl. rewrite Ht1, Hp1, <- app_assoc. split; reflexivity.
  - intros addr ip rt Ha Hi Hr. rewrite Ha, Hi, Hr. eexists. split; [reflexivity|].
    set (m2 := emit (EvPing ip timeout) _).
    assert (Hpx2 : statuspix m2 = Some {| has_color := has_color px; shown := Some busy |})
      by exact Hp1.
    destruct (write_pixel_present off _ m2 Hpx2) as [Ht2 Hp2].
    unfold pixel_shown. rewrite Ht2, Hp2. subst m2. simpl. rewrite Ht1.
    rewrite <- !app_assoc. split; reflexivity.
Qed.

(** ** More on [get_ntp_time] *)

(** X13 --- [get_ntp_time] accepts replies of exactly 48 bytes: on any
    other length, longer replies included, it raises the error of
    [struct.unpack], with the socket closed and the RTC not written. *)
Theorem get_ntp_time_wrong_length (env : Env) (fuel : nat) (tz_offset : Z) (dbg : bool)
    (self : WiFiManager) (pool : SocketPool) (reply : list byte) :
  ap_info (radio self) <> None ->
  _pool self = Some pool ->
  socket_sendto env ntp_msg "pool.ntp.org" 123 = inr tt ->
  socket_recvfrom_into env = inr reply ->
  length reply <> 48%nat ->
  exists e self',
    get_ntp_time env fuel tz_offset dbg self = Raise e self' /\
    exn_cls e = StructError /\
    rtc_datetime (world self') = rtc_datetime (world self) /\
    trace (world self') =
      trace (world self) ++
      [EvSocket; EvSetTimeout 30; EvSendTo ntp_msg "pool.ntp.org" 123;
       EvRecvFromInto 1024; EvSocketClose].
Proof.
  intros Hassoc Hpool Hsend Hrecv Hlen.
  rewrite (get_ntp_time_run env fuel tz_offset dbg self pool Hassoc Hpool), Hsend, Hrecv.
  cbv zeta. rewrite ntp_seconds_short by (rewrite length_take; lia).
  eexists _, _. split; [reflexivity|]. split; [reflexivity|].
  split; [reflexivity|]. simpl. rewrite <- !app_assoc. reflexivity.
Qed.

Lemma socket_left_open_app (t t' : list event) :
  socket_left_open (t ++ t') =
    fold_left (fun is_open e =>
                 match e with
                 | EvSocket => true
                 | EvSocketClose => false
                 | _ => is_open
                 end) t' (socket_left_open t).
Proof. unfold socket_left_open. apply fold_left_app. Qed.

(** X14 --- In the model [pool.socket()] and [client.settimeout(30)], which
    come before the [with client:] block, do not fail.  On an associated
    manager with a pool every run of [get_ntp_time] therefore opens the
    socket, sets the timeout and enters the block with [sendto]; however the
    run ends from there on, the socket is closed; the RTC is written when
    the run returns, with a value that [time.localtime] returned, and is not
    written when it raises. *)
Theorem get_ntp_time_releases_socket (env : Env) (fuel : nat) (tz_offset : Z) (dbg : bool)
    (self : WiFiManager) (pool : SocketPool) :
  ap_info (radio self) <> None ->
  _pool self = Some pool ->
  let entered (self' : WiFiManager) :=
    exists rest,
      trace (world self') =
        trace (world self) ++
        EvSocket :: EvSetTimeout 30 :: EvSendTo ntp_msg "pool.ntp.org" 123 :: rest in
  match get_ntp_time env fuel tz_offset dbg self with
  | Ret _ self' =>
      entered self' /\
      socket_left_open (trace (world self')) = false /\
      exists secs now,
        time_localtime env secs = inr now /\
        rtc_datetime (world self') = Some now
  | Raise _ self' =>
      entered self' /\
      socket_left_open (trace (world self')) = false /\
      rtc_datetime (world self') = rtc_datetime (world self)
  | OutOfFuel => False
  end.
Proof.
  intros Hassoc Hpool entered. subst entered. cbv beta.
  rewrite (get_ntp_time_run env fuel tz_offset dbg self pool Hassoc Hpool).
  unfold ntp_listening, ntp_sent, emit, set_rtc.
  assert (Hraise : forall m : WiFiManager,
            (exists rest,
               trace (world m) =
                 trace (world self) ++
                 EvSocket :: EvSetTimeout 30
                 :: EvSendTo ntp_msg "pool.ntp.org" 123 :: rest) ->
            socket_left_open (trace (world m)) = false ->
            rtc_datetime (world m) = rtc_datetime (world self) ->
            (exists rest,
               trace (world m) =
                 trace (world self) ++
                 EvSocket :: EvSetTimeout 30
                 :: EvSendTo ntp_msg "pool.ntp.org" 123 :: rest) /\
            socket_left_open (trace (world m)) = false /\
            rtc_datetime (world m) = rtc_datetime (world self))
    by (intros; repeat split; assumption).
  destruct (socket_sendto env ntp_msg "pool.ntp.org" 123) as [e|[]].
  { apply Hraise;
      [eexists; simpl; rewrite <- !app_assoc; reflexivity
      |simpl; rewrite !socket_left_open_app; reflexivity
      |reflexivity]. }
  destruct (socket_recvfrom_into env) as [e|data].
  { apply Hraise;
      [eexists; simpl; rewrite <- !app_assoc; reflexivity
      |simpl; rewrite !socket_left_open_app; reflexivity
      |reflexivity]. }
  cbv zeta.
  destruct (ntp_seconds (take 1024 data) tz_offset) as [e|secs].
  { apply Hraise;
      [eexists; simpl; rewrite <- !app_assoc; reflexivity
      |simpl; rewrite !socket_left_open_app; reflexivity
      |reflexivity]. }
  destruct (time_localtime env secs) as [e|now] eqn:Hnow.
  { apply Hraise;
      [eexists; simpl; rewrite <- !app_assoc; reflexivity
      |simpl; rewrite !socket_left_open_app; reflexivity
      |reflexivity]. }
  split; [|split].
  - destruct dbg; eexists; simpl; rewrite <- !app_assoc; reflexivity.
  - destruct dbg; simpl; rewrite !socket_left_open_app; reflexivity.
  - exists secs, now. split; [exact Hnow|]. destruct dbg; reflexivity.
Qed.

Lemma byte_val_range (b : byte) : 0 <= byte_val b < 256.
Proof.
  unfold byte_val. pose proof (Byte.to_N_bounded b) as H. lia.
Qed.

Lemma be32_range (l : list byte) :
  forall acc, 0 <= acc ->
    0 <= fold_left (fun a x => a * 256 + byte_val x) l acc
      < (acc + 1) * 256 ^ Z.of_nat (length l).
Proof.
  induction l as [|b l IH]; intros acc Hacc.
  - simpl. lia.
  - cbn [fold_left length]. pose proof (byte_val_range b) as Hb.
    specialize (IH (acc * 256 + byte_val b) ltac:(lia)).
    rewrite Nat2Z.inj_succ, Z.pow_succ_r by lia.
    split; [lia|]. eapply Z.lt_le_trans; [apply IH|].
    assert (0 < 256 ^ Z.of_nat (length l)) by (apply Z.pow_pos_nonneg; lia).
    nia.
Qed.

(** X15 --- The seconds that [get_ntp_time] computes from a reply of 48
    bytes lie between tz_offset - 2208988800 and tz_offset + 2085978495:
    the timestamp is one unsigned 32-bit word, so no Unix time after
    2085978495 (7 February 2036) plus the offset can come out of a reply. *)
Theorem ntp_seconds_range (reply : list byte) (tz_offset : Z) :
  length reply = 48%nat ->
  exists secs,
    ntp_seconds reply tz_offset = inr secs /\
    tz_offset - 2208988800 <= secs <= tz_offset + 2085978495.
Proof.
  intros Hlen. unfold ntp_seconds, struct_unpack_12I, index.
  rewrite Hlen. cbn [Nat.eqb]. rewrite words_lookup by lia.
  eexists. split; [reflexivity|].
  pose proof (be32_range (take 4 (drop (4 * 10) reply)) 0 ltac:(lia)) as Hb.
  fold (be32 (take 4 (drop (4 * 10) reply))) in Hb.
  assert (Hl : length (take 4 (drop (4 * 10) reply)) = 4%nat).
  { rewrite length_take, length_drop, Hlen. reflexivity. }
  rewrite Hl in Hb. change ((0 + 1) * 256 ^ Z.of_nat 4) with 4294967296 in Hb.
  unfold TIME1970. lia.
Qed.

(** ** From the constructor to the first connection *)

Lemma pools_created_write_pixel v m :
  pools_created (trace (world (write_pixel v m))) = pools_created (trace (world m)).
Proof. destruct (quiet_write_pixel v m) as (_ & _ & H & _). exact H. Qed.

(** X16 --- A manager constructed from secrets that hold two sequences of
    the same length, connection type [NORMAL], on an unassociated radio: the
    constructor calls nothing but the status pixel, and the first [connect]
    dials the first SSID with the first password; when the radio fails k
    times with a caught error and then associates, [connect] returns with
    the pool and the session created and the cursor on the second pair (on
    the first again when there is only one). *)
Theorem init_then_connect_first_pair (env : Env) (radio0 : Radio)
    (secrets : gmap string value) (status_pixel : option StatusPixel)
    (debug0 : bool) (w : World) (sv pv s p : value) (k fuel : nat) (info : APInfo) :
  secrets !! "ssid"%string = Some sv ->
  secrets !! "password"%string = Some pv ->
  is_seq sv = true ->
  is_seq pv = true ->
  length (seq_items sv) = length (seq_items pv) ->
  seq_items sv !! O = Some s ->
  seq_items pv !! O = Some p ->
  ap_info radio0 = None ->
  fails_then_succeeds env (connect_calls radio0) k s p info ->
  (k < fuel)%nat ->
  exists self self',
    __init__ radio0 secrets status_pixel NORMAL debug0 w = inr self /\
    attempts (trace (world self)) = attempts (trace w) /\
    pools_created (trace (world self)) = pools_created (trace w) /\
    connect env fuel self = Ret tt self' /\
    attempts (trace (world self')) = attempts (trace w) ++ repeat (s, p) (S k) /\
    ap_info (radio self') = Some info /\
    _pool self' = Some SocketPool_of_radio /\
    _requests self' = Some Session_of_pool /\
    _ap_index self' = (if (length (seq_items sv) <=? 1)%nat then O else 1%nat).
Proof.
  intros Hs Hp Hsseq Hpseq Hlen Hs0 Hp0 Hnone Hscript Hfuel.
  unfold __init__. rewrite Hs, Hp. simpl default.
  set (self := write_pixel (PInt 0) _).
  assert (Hssid : ssid self = sv).
  { subst self. unfold write_pixel. simpl.
    destruct status_pixel as [px|]; [destruct (has_color px)|]; reflexivity. }
  assert (Hpw : password self = pv).
  { subst self. unfold write_pixel. simpl.
    destruct status_pixel as [px|]; [destruct (has_color px)|]; reflexivity. }
  assert (Hidx : _ap_index self = O)
    by (subst self; rewrite ap_index_write_pixel; reflexivity).
  assert (Hct : _connection_type self = NORMAL).
  { subst self. unfold write_pixel. simpl.
    destruct status_pixel as [px|]; [destruct (has_color px)|]; reflexivity. }
  assert (Hradio : radio self = radio0)
    by (subst self; rewrite radio_write_pixel; reflexivity).
  assert (Hatt : attempts (trace (world self)) = attempts (trace w))
    by (subst self; rewrite attempts_write_pixel; reflexivity).
  assert (Hpc : pools_created (trace (world self)) = pools_created (trace w))
    by (subst self; rewrite pools_created_write_pixel; reflexivity).
  assert (Hfetch : _get_next_ap self =
            Ret (s, p)
              (set_ap_index (if (length (seq_items sv) <=? 1)%nat then O else 1%nat) self)).
  { rewrite (get_next_ap_seq self s p); rewrite ?Hssid, ?Hpw, ?Hidx; auto. }
  destruct (get_next_ap_diagnosed _ _ _ Hfetch) as (m0 & Hm0 & Hq & Hi0).
  destruct Hq as (Hr & Ha & Hpq & _). simpl in Hr, Ha, Hpq, Hi0.
  destruct (connect_loop_retries env s p info k fuel O m0)
    as (m1 & Hloop & Hatt1 & Hidx1 & Hinfo);
    [rewrite Hr, Hradio; exact Hnone|rewrite Hr, Hradio; exact Hscript|exact Hfuel|].
  exists self, (with_session m1).
  split; [reflexivity|]. split; [exact Hatt|]. split; [exact Hpc|].
  split.
  { rewrite connect_run, Hct, Z.eqb_refl. cbv iota.
    unfold connect_normal, bind. rewrite Hm0. cbn [fst snd]. rewrite Hloop. reflexivity. }
  unfold with_session. simpl. rewrite !attempts_app. simpl.
  rewrite !app_nil_r, Hatt1, Ha, Hatt, Hinfo, Hidx1, Hi0. repeat split.
Qed.

(** ** [deinit] before any connection *)

(** X17 --- On a manager without a pool (one that never connected),
    [deinit] returns with the status pixel on 0 and no call of
    [pool.close()], and calling it again does the same. *)
Theorem deinit_before_connect (env : Env) (self : WiFiManager) :
  _pool self = None ->
  exists m1 m2,
    deinit env self = Ret tt m1 /\
    deinit env m1 = Ret tt m2 /\
    pixel_shown m1 = option_map (fun _ => Some off) (statuspix self) /\
    pixel_shown m2 = pixel_shown m1 /\
    _pool m2 = None /\
    quiet self m2.
Proof.
  intros Hpool.
  pose proof (deinit_without_pool env self Hpool) as H1.
  assert (Hp1 : _pool (write_pixel off self) = None).
  { destruct (quiet_write_pixel off self) as (_ & _ & _ & _ & Hp & _). congruence. }
  pose proof (deinit_without_pool env _ Hp1) as H2.
  exists (write_pixel off self), (write_pixel off (write_pixel off self)).
  split; [exact H1|]. split; [exact H2|].
  split; [|split; [|split]].
  - unfold pixel_shown, write_pixel.
    destruct (statuspix self) as [px|] eqn:Hpx; [destruct (has_color px)|];
      simpl; rewrite ?Hpx; reflexivity.
  - unfold pixel_shown, write_pixel.
    destruct (statuspix self) as [px|] eqn:Hpx; [destruct (has_color px) eqn:Hc|];
      simpl; rewrite ?Hc, ?Hpx; simpl; rewrite ?Hpx; reflexivity.
  - destruct (quiet_write_pixel off (write_pixel off self)) as (_ & _ & _ & _ & Hp & _).
    congruence.
  - eapply quiet_trans; apply quiet_write_pixel.
Qed.

(** ** A guard that fails *)

(** X18 --- On an unassociated manager whose connection type is not
    [NORMAL], each of the nine network operations raises the error of
    [connect] ([NotImplementedError] for [ENTERPRISE], [TypeError]
    otherwise) before doing anything of its own: apart from the diagnostics
    of [connect], the object is untouched. *)
Theorem operations_fail_with_guard (env : Env) (fuel : nat) (self : WiFiManager)
    (op : operation) :
  ap_info (radio self) = None ->
  _connection_type self <> NORMAL ->
  exists e,
    run env fuel op self = Raise e (diagnosed self) /\
    exn_cls e = (if _connection_type self =? ENTERPRISE
                 then NotImplementedError else TypeError) /\
    pixel_writes (trace (world (diagnosed self))) = pixel_writes (trace (world self)).
Proof.
  intros Hnone Hct.
  assert (Hg : exists e,
            ensure_connected env fuel self = Raise e (diagnosed self) /\
            exn_cls e = (if _connection_type self =? ENTERPRISE
                         then NotImplementedError else TypeError)).
  { unfold ensure_connected. rewrite Hnone, connect_run.
    destruct (Z.eqb_spec (_connection_type self) NORMAL) as [E|_]; [contradiction|].
    destruct (_connection_type self =? ENTERPRISE); eexists; split; reflexivity. }
  destruct Hg as (e & Hg & Hcls). exists e. split; [|split; [exact Hcls|]].
  - destruct op; unfold run, forget, get, put, patch, delete, request_and_reset, post,
      ping, ip_address, signal_strength, get_ntp_time; cbv zeta;
      unfold bind at 1; unfold bind at 1; rewrite Hg; reflexivity.
  - unfold diagnosed. destruct (debug self); [|reflexivity].
    simpl. unfold scan_log. rewrite !pixel_writes_app. simpl.
    assert (Hprints : forall l : list (string * Z),
              pixel_writes (map (fun ap => EvPrint (fst ap)) l) = [])
      by (induction l; simpl; auto).
    rewrite Hprints. simpl. apply app_nil_r.
Qed.

(** ** Malformed credentials and the status pixel in [connect] *)

(** X19 --- [connect] on malformed credentials (type [NORMAL]) raises the
    error of [_get_next_ap] without entering the retry loop: although a
    [ValueError] raised by [radio.connect] would be retried, the one raised
    by the fetch is not, and [radio.connect] is never called. *)
Theorem connect_malformed_not_retried (env : Env) (fuel : nat) (self : WiFiManager) :
  malformed self ->
  _connection_type self = NORMAL ->
  exists e,
    connect env fuel self = Raise e (diagnosed self) /\
    exn_cls e = (if is_seq (ssid self) && is_seq (password self)
                 then ValueError else NotImplementedError) /\
    recoverable e = true /\
    attempts (trace (world (diagnosed self))) = attempts (trace (world self)) /\
    connect_calls (radio (diagnosed self)) = connect_calls (radio self).
Proof.
  intros Hbad Hct.
  destruct (get_next_ap_malformed self Hbad) as (e & Hrun & Hcls).
  exists e.
  assert (Hd : _get_next_ap (diagnosed self) = Raise e (diagnosed self)).
  { unfold diagnosed. destruct (debug self); [|exact Hrun].
    rewrite get_next_ap_set_world, Hrun. reflexivity. }
  destruct (quiet_diagnosed self) as (Hr & Ha & _).
  split; [|split; [exact Hcls|split; [|split; [exact Ha|rewrite Hr; reflexivity]]]].
  - rewrite connect_run, Hct, Z.eqb_refl. cbv iota.
    unfold connect_normal, bind. rewrite Hd. reflexivity.
  - unfold recoverable. rewrite Hcls.
    destruct (is_seq (ssid self) && is_seq (password self)); reflexivity.
Qed.

Lemma pixel_shown_write_pixel v m :
  pixel_shown (write_pixel v m) = option_map (fun _ => Some v) (statuspix m).
Proof.
  unfold pixel_shown, write_pixel.
  destruct (statuspix m) as [px|] eqn:Hpx; [destruct (has_color px)|];
    simpl; rewrite ?Hpx; reflexivity.
Qed.

Lemma kept_presence {A} (c : A) m m' :
  kept m m' ->
  option_map (fun _ => c) (statuspix m') = option_map (fun _ => c) (statuspix m).
Proof.
  intros (_ & _ & _ & H).
  destruct (statuspix m), (statuspix m'); simpl in *; congruence.
Qed.

Lemma connect_loop_retries_pixel (env : Env) s p info (k : nat) :
  forall fuel fc self,
    ap_info (radio self) = None ->
    fails_then_succeeds env (connect_calls (radio self)) k s p info ->
    (k < fuel)%nat ->
    exists self',
      connect_loop env fuel s p fc self = Ret tt self' /\
      pixel_shown self' = option_map (fun _ => Some (PRGB 0 100 0)) (statuspix self) /\
      kept self self'.
Proof.
  induction k as [|k IH]; intros fuel fc self Hnone [Hfail Hok] Hfuel;
    (destruct fuel as [|fuel]; [lia|]);
    rewrite (connect_loop_step _ _ _ _ _ _ Hnone); cbv zeta;
    rewrite radio_before_attempt;
    pose proof (kept_attempt env s p self) as Hstep.
  - rewrite Nat.add_0_r in Hok. rewrite Hok. simpl raised. cbv beta iota.
    set (m3 := write_pixel _ _).
    assert (Hinfo : ap_info (radio m3) = Some info).
    { subst m3. rewrite radio_write_pixel. unfold dial. simpl.
      rewrite radio_before_attempt, Hok. reflexivity. }
    exists m3. rewrite (connect_loop_associated _ _ _ _ _ _ _ Hinfo).
    split; [reflexivity|]. subst m3. split.
    + rewrite pixel_shown_write_pixel. apply kept_presence, Hstep.
    + eapply kept_trans; [exact Hstep|apply kept_write_pixel].
  - destruct (Hfail O ltac:(lia)) as (e & He & Hrec).
    rewrite Nat.add_0_r in He. rewrite He. simpl raised. cbv beta iota. rewrite Hrec.
    set (m3 := emit _ _).
    assert (Hk3 : kept self m3)
      by (eapply kept_trans; [exact Hstep|apply kept_emit; reflexivity]).
    assert (Hcalls : connect_calls (radio m3) = S (connect_calls (radio self))).
    { subst m3. unfold dial. simpl. rewrite radio_before_attempt. reflexivity. }
    assert (Hnone3 : ap_info (radio m3) = None).
    { subst m3. unfold dial. simpl. rewrite radio_before_attempt, He. reflexivity. }
    destruct (IH fuel (S fc) m3 Hnone3) as (self' & Hrun & Hpix & Hk).
    { rewrite Hcalls. split.
      - intros i Hi. destruct (Hfail (S i) ltac:(lia)) as (e' & He' & Hrec').
        exists e'. rewrite <- He'. split; [f_equal; lia|exact Hrec'].
      - rewrite <- Hok. f_equal. lia. }
    { lia. }
    exists self'. split; [exact Hrun|]. split.
    + rewrite Hpix. apply kept_presence, Hk3.
    + eapply kept_trans; eassumption.
Qed.

(** X20 --- When the radio fails k times with a caught error and then
    associates, [connect_normal] returns with the status pixel on
    (0, 100, 0); the pool and the session attributes are not touched by
    it ([connect] sets them afterwards). *)
Theorem connect_normal_ends_green (env : Env) (self self1 : WiFiManager) (s p : value)
    (k fuel : nat) (info : APInfo) :
  _get_next_ap self = Ret (s, p) self1 ->
  ap_info (radio self) = None ->
  fails_then_succeeds env (connect_calls (radio self)) k s p info ->
  (k < fuel)%nat ->
  exists self',
    connect_normal env fuel self = Ret tt self' /\
    pixel_shown self' = option_map (fun _ => Some (PRGB 0 100 0)) (statuspix self) /\
    _pool self' = _pool self /\
    _requests self' = _requests self.
Proof.
  intros Hfetch Hnone Hscript Hfuel.
  destruct (get_next_ap_frame _ _ _ Hfetch) as [i ->].
  destruct (connect_loop_retries_pixel env s p info k fuel O (set_ap_index i self)
              Hnone Hscript Hfuel) as (self' & Hrun & Hpix & Hp & Hr & _).
  exists self'. unfold connect_normal, bind. rewrite Hfetch. cbn [fst snd].
  split; [exact Hrun|]. split; [exact Hpix|]. split; [exact Hp|exact Hr].
Qed.

(** * Examples for the further properties *)

Lemma connect_other_types_raise_witness :
  exists e,
    connect flaky_env 3 enterprise_mgr = Raise e (diagnosed enterprise_mgr) /\
    exn_cls e = NotImplementedError /\
    attempts (trace (world (diagnosed enterprise_mgr))) = [].
Proof.
  destruct (connect_other_types_raise flaky_env 3 enterprise_mgr ltac:(discriminate))
    as (e & Hrun & Hcls & _).
  exists e. split; [exact Hrun|]. split; [exact Hcls|reflexivity].
Defined.

Lemma connect_while_associated_witness :
  exists self',
    connect flaky_env 0 linked = Ret tt self' /\
    attempts (trace (world self')) = [] /\
    pools_created (trace (world self')) = 1%nat /\
    sessions_created (trace (world self')) = 1%nat /\
    trace (world self') = [EvNewPool; EvNewSession] /\
    _requests self' = Some Session_of_pool.
Proof.
  destruct (connect_while_associated flaky_env 0 linked linked (VStr "A", VStr "a")
              ltac:(discriminate) eq_refl eq_refl)
    as (self' & Hrun & Hatt & _ & _ & Hpc & Hsc & Htrace & _ & Hreq).
  exists self'. split; [exact Hrun|]. split; [exact Hatt|]. split; [exact Hpc|].
  split; [exact Hsc|]. split; [exact Htrace|exact Hreq].
Defined.

Lemma request_connects_first_witness :
  exists self',
    request flaky_env GET 2 "http://example.com/" [] two_aps =
      Ret {| status_code := 200; text := "ok" |} self' /\
    attempts (trace (world self')) = [(VStr "A", VStr "a"); (VStr "A", VStr "a")] /\
    _requests self' = Some Session_of_pool /\
    pools_created (trace (world self')) = 1%nat /\
    sessions_created (trace (world self')) = 1%nat.
Proof.
  destruct (request_connects_first flaky_env GET 2 "http://example.com/" [] two_aps
              (set_ap_index 1 two_aps) (VStr "A") (VStr "a") 1 home_ap
              {| status_code := 200; text := "ok" |} eq_refl eq_refl eq_refl)
    as (self' & Hrun & Hatt & _ & _ & Hreq & Hpc & Hsc).
  - split.
    + intros i Hi. exists (Exn RuntimeError "No network with that ssid").
      destruct i as [|i]; [split; reflexivity|lia].
    + reflexivity.
  - lia.
  - reflexivity.
  - exists self'. split; [exact Hrun|]. split; [exact Hatt|]. split; [exact Hreq|].
    split; [exact Hpc|exact Hsc].
Defined.

Lemma request_error_leaves_busy_witness :
  exists self',
    request offline_env GET 0 "https://example.com/" [] linked =
      Raise (Exn OSError "Failed SSL handshake") self' /\
    pixel_shown self' = Some (Some (PRGB 0 0 100)).
Proof.
  destruct (request_error_leaves_busy offline_env GET 0 "https://example.com/" [] linked
              Session_of_pool (Exn OSError "Failed SSL handshake")
              ltac:(discriminate) eq_refl eq_refl)
    as (self' & Hrun & Hpix & _).
  exists self'. split; [exact Hrun|exact Hpix].
Defined.

Lemma associated_without_session_witness :
  request flaky_env GET 0 "http://example.com/" [] fresh_on_linked =
    Raise (Exn AssertionError "") fresh_on_linked /\
  signal_strength flaky_env 0 fresh_on_linked = Ret (-40) fresh_on_linked.
Proof.
  destruct (associated_without_session flaky_env 0 fresh_on_linked home_ap
              eq_refl eq_refl eq_refl) as (Hreq & _ & _ & Hrssi & _).
  split; [apply Hreq|exact Hrssi].
Defined.

Lemma ping_outcomes_witness :
  (exists self',
     ping flaky_env 0 "example.com" (VInt 1) linked = Ret (VInt 0) self' /\
     pixel_shown self' = Some (Some (PInt 0))) /\
  (exists self',
     ping offline_env 0 "example.com" (VInt 1) linked =
       Raise (Exn OSError "Name or service not known") self' /\
     pixel_shown self' = Some (Some (PRGB 0 0 100))).
Proof.
  split.
  - destruct (ping_outcomes flaky_env 0 "example.com" (VInt 1) linked SocketPool_of_radio
                neopixel ltac:(discriminate) eq_refl eq_refl) as [_ Hok].
    destruct (Hok "93.184.216.34"%string (VStr "93.184.216.34") (VInt 0)
                eq_refl eq_refl eq_refl) as (self' & Hrun & _ & Hpix).
    exists self'. split; [exact Hrun|exact Hpix].
  - destruct (ping_outcomes offline_env 0 "example.com" (VInt 1) linked SocketPool_of_radio
                neopixel ltac:(discriminate) eq_refl eq_refl) as [Hfail _].
    destruct (Hfail (Exn OSError "Name or service not known") eq_refl)
      as (self' & Hrun & _ & Hpix).
    exists self'. split; [exact Hrun|exact Hpix].
Defined.

Lemma get_ntp_time_wrong_length_witness :
  length long_reply = 68%nat /\
  exists e self',
    get_ntp_time long_env 0 0 false linked = Raise e self' /\
    exn_cls e = StructError /\
    rtc_datetime (world self') = None.
Proof.
  split; [reflexivity|].
  destruct (get_ntp_time_wrong_length long_env 0 0 false linked SocketPool_of_radio
              long_reply ltac:(discriminate) eq_refl eq_refl eq_refl ltac:(discriminate))
    as (e & self' & Hrun & Hcls & Hrtc & _).
  exists e, self'. split; [exact Hrun|]. split; [exact Hcls|exact Hrtc].
Defined.

Lemma get_ntp_time_releases_socket_witness :
  exists e self',
    get_ntp_time offline_env 0 0 false linked = Raise e self' /\
    socket_left_open (trace (world self')) = false.
Proof.
  pose proof (get_ntp_time_releases_socket offline_env 0 0 false linked
                SocketPool_of_radio ltac:(discriminate) eq_refl) as H.
  destruct (get_ntp_time offline_env 0 0 false linked) as [a m|e m|] eqn:Hrun;
    [discriminate Hrun| |discriminate Hrun].
  exists e, m. split; [reflexivity|exact (proj1 (proj2 H))].
Defined.

Lemma ntp_seconds_range_witness :
  exists secs,
    ntp_seconds ntp_reply 3600 = inr secs /\
    3600 - 2208988800 <= secs <= 3600 + 2085978495.
Proof. apply (ntp_seconds_range ntp_reply 3600). reflexivity. Defined.

Lemma init_then_connect_first_pair_witness :
  exists self self',
    __init__ idle_radio two_ap_secrets (Some neopixel) NORMAL false blank_world = inr self /\
    connect flaky_env 2 self = Ret tt self' /\
    attempts (trace (world self')) = [(VStr "A", VStr "a"); (VStr "A", VStr "a")] /\
    _ap_index self' = 1%nat.
Proof.
  destruct (init_then_connect_first_pair flaky_env idle_radio two_ap_secrets
              (Some neopixel) false blank_world
              (VList [VStr "A"; VStr "B"]) (VList [VStr "a"; VStr "b"])
              (VStr "A") (VStr "a") 1 2 home_ap)
    as (self & self' & Hinit & _ & _ & Hrun & Hatt & _ & _ & _ & Hidx);
    try reflexivity; try (vm_compute; reflexivity).
  - split.
    + intros i Hi. exists (Exn RuntimeError "No network with that ssid").
      destruct i as [|i]; [split; reflexivity|lia].
    + reflexivity.
  - exists self, self'. split; [exact Hinit|]. split; [exact Hrun|].
    split; [exact Hatt|exact Hidx].
Defined.

Lemma deinit_before_connect_witness :
  exists m1 m2,
    deinit flaky_env two_aps = Ret tt m1 /\
    deinit flaky_env m1 = Ret tt m2 /\
    pixel_shown m2 = Some (Some (PInt 0)).
Proof.
  destruct (deinit_before_connect flaky_env two_aps eq_refl)
    as (m1 & m2 & H1 & H2 & Hp1 & Hp2 & _).
  exists m1, m2. split; [exact H1|]. split; [exact H2|].
  rewrite Hp2. exact Hp1.
Defined.

Lemma operations_fail_with_guard_witness :
  exists e,
    run flaky_env 3 (OpGet "http://example.com/" []) enterprise_mgr =
      Raise e (diagnosed enterprise_mgr) /\
    exn_cls e = NotImplementedError.
Proof.
  destruct (operations_fail_with_guard flaky_env 3 enterprise_mgr
              (OpGet "http://example.com/" []) eq_refl ltac:(discriminate))
    as (e & Hrun & Hcls & _).
  exists e. split; [exact Hrun|exact Hcls].
Defined.

Lemma connect_malformed_not_retried_witness :
  exists e,
    connect flaky_env 5 uneven_aps = Raise e (diagnosed uneven_aps) /\
    exn_cls e = ValueError.
Proof.
  assert (H : malformed uneven_aps).
  { left. split; [reflexivity|]. split; [reflexivity|]. discriminate. }
  destruct (connect_malformed_not_retried flaky_env 5 uneven_aps H eq_refl)
    as (e & Hrun & Hcls & _).
  exists e. split; [exact Hrun|exact Hcls].
Defined.

Lemma connect_normal_ends_green_witness :
  exists self',
    connect_normal flaky_env 2 two_aps = Ret tt self' /\
    pixel_shown self' = Some (Some (PRGB 0 100 0)).
Proof.
  destruct (connect_normal_ends_green flaky_env two_aps (set_ap_index 1 two_aps)
              (VStr "A") (VStr "a") 1 2 home_ap eq_refl eq_refl)
    as (self' & Hrun & Hpix & _).
  - split.
    + intros i Hi. exists (Exn RuntimeError "No network with that ssid").
      destruct i as [|i]; [split; reflexivity|lia].
    + reflexivity.
  - lia.
  - exists self'. split; [exact Hrun|exact Hpix].
Defined.
